(** * Inventory dashboard: a shallow embedding of the analytics, the
    conversational context assembly and the real-time event generator.

    The definitions follow [dashboard.py], [realtime_dashboard.py] and
    [realtime_data_gen.py].  Pandas frames are lists of row records, Python
    exceptions and [print] are threaded through a small monad, and the
    store, the schema reader and the generative model are oracles of a
    [World] record. *)

From Stdlib Require Import List String Ascii ZArith QArith Qround Bool Lia.
From Stdlib Require Import DecimalString OrderedTypeEx Sorted Permutation.
Import ListNotations.

Local Open Scope string_scope.
Local Open Scope Z_scope.

(* ================================================================== *)
(** * Part I: definitions *)
(* ================================================================== *)

(** ** Python values, text helpers, exceptions and printing *)
Module Py.

(** [str(n)] for a Python int. *)
Definition str_of_int (n : Z) : string := NilZero.string_of_int (Z.to_int n).

(** [sep.join(l)]. *)
Definition join (sep : string) (l : list string) : string := String.concat sep l.

(** Python truthiness of an [int | None] such as Dash's [n_clicks]. *)
Definition truthy_int (n : option Z) : bool :=
  match n with
  | Some k => negb (k =? 0)
  | None => false
  end.

(** Python truthiness of a [str | None]. *)
Definition truthy_str (s : option string) : bool :=
  match s with
  | Some "" => false
  | Some _ => true
  | None => false
  end.

(** Exceptions: Dash's [PreventUpdate], or any other [Exception] with its
    class name and its [str(e)]. *)
Inductive exn : Type :=
| PreventUpdate
| PyError (cls : string) (msg : string).

Definition str (e : exn) : string :=
  match e with
  | PreventUpdate => ""
  | PyError _ msg => msg
  end.

(** What a call leaves behind: a value, or a raised exception. *)
Inductive outcome (A : Type) : Type :=
| Returned (a : A)
| Raised (e : exn).
Arguments Returned {A} a.
Arguments Raised {A} e.

(** Lines written by [print], oldest first. *)
Definition stdout := list string.

(** A computation that may print and may raise. *)
Definition M (A : Type) : Type := stdout -> outcome A * stdout.

Definition ret {A} (a : A) : M A := fun out => (Returned a, out).

Definition bind {A B} (m : M A) (k : A -> M B) : M B :=
  fun out =>
    match m out with
    | (Returned a, out') => k a out'
    | (Raised e, out') => (Raised e, out')
    end.

Definition raise {A} (e : exn) : M A := fun out => (Raised e, out).

Definition print (line : string) : M unit :=
  fun out => (Returned tt, (out ++ [line])%list).

(** [try: body  except Exception as e: handler e]. *)
Definition try_except {A} (body : M A) (handler : exn -> M A) : M A :=
  fun out =>
    match body out with
    | (Returned a, out') => (Returned a, out')
    | (Raised e, out') => handler e out'
    end.

(** A call into the outside world whose result is already known. *)
Definition call {A} (r : outcome A) : M A := fun out => (r, out).

End Py.

Declare Scope py_scope.
Delimit Scope py_scope with py.
Notation "x <- m ;; k" := (Py.bind m (fun x => k))
  (at level 100, m at next level, right associativity) : py_scope.
Notation "m ;;; k" := (Py.bind m (fun _ => k))
  (at level 100, right associativity) : py_scope.

(** ** Floating-point results as pandas shows them *)
Module Float.

(** A float64 cell: a finite value (kept as an exact rational, rounding
    error of the finite arithmetic is not modelled), or one of the IEEE 754
    specials that division can produce. *)
Inductive fval : Type :=
| Fin (q : Q)
| PInf
| NInf
| NaN.

Definition of_int (n : Z) : fval := Fin (inject_Z n).

Definition is_nan (x : fval) : bool :=
  match x with NaN => true | _ => false end.

Definition is_inf (x : fval) : bool :=
  match x with PInf | NInf => true | _ => false end.

Definition is_finite (x : fval) : bool :=
  match x with Fin _ => true | _ => false end.

Definition fsub (a b : fval) : fval :=
  match a, b with
  | NaN, _ | _, NaN => NaN
  | Fin x, Fin y => Fin (Qred (x - y))
  | PInf, PInf | NInf, NInf => NaN
  | PInf, _ | _, NInf => PInf
  | NInf, _ | _, PInf => NInf
  end.

Definition fneg (a : fval) : fval :=
  match a with
  | Fin x => Fin (Qred (- x))
  | PInf => NInf
  | NInf => PInf
  | NaN => NaN
  end.

(** Sign of a finite value: [Gt] positive, [Lt] negative, [Eq] zero. *)
Definition qsign (x : Q) : comparison := (Qnum x ?= 0)%Z.

Definition fmul (a b : fval) : fval :=
  match a, b with
  | NaN, _ | _, NaN => NaN
  | Fin x, Fin y => Fin (Qred (x * y))
  | Fin x, PInf | PInf, Fin x =>
      match qsign x with Gt => PInf | Lt => NInf | Eq => NaN end
  | Fin x, NInf | NInf, Fin x =>
      match qsign x with Gt => NInf | Lt => PInf | Eq => NaN end
  | PInf, PInf | NInf, NInf => PInf
  | PInf, NInf | NInf, PInf => NInf
  end.

(** Division as numpy performs it on float64 columns: no exception, a
    zero divisor gives an infinity, [0/0] gives NaN.  Divisors here are
    non-negative-zero (they come from integer sums). *)
Definition fdiv (a b : fval) : fval :=
  match a, b with
  | NaN, _ | _, NaN => NaN
  | Fin x, Fin y =>
      match qsign y with
      | Eq => match qsign x with Gt => PInf | Lt => NInf | Eq => NaN end
      | _ => Fin (Qred (x / y))
      end
  | Fin _, (PInf | NInf) => Fin 0
  | (PInf | NInf), (PInf | NInf) => NaN
  | PInf, Fin y => match qsign y with Lt => NInf | _ => PInf end
  | NInf, Fin y => match qsign y with Lt => PInf | _ => NInf end
  end.

(** Round half to even to an integer. *)
Definition round_half_even (x : Q) : Z :=
  let n := Qfloor x in
  match Qcompare (x - inject_Z n) (1 # 2) with
  | Lt => n
  | Gt => n + 1
  | Eq => if Z.even n then n else n + 1
  end.

(** [.round(d)]: round to [d] decimals; specials are unchanged.  The
    finite case rounds the exact rational; numpy rounds the float64
    value, which can differ from it in the last digit. *)
Definition round (d : nat) (a : fval) : fval :=
  match a with
  | Fin x =>
      let scale := inject_Z (10 ^ Z.of_nat d) in
      Fin (Qred (inject_Z (round_half_even (x * scale)) / scale))
  | other => other
  end.

(** [x >= 0] on a float: false on NaN. *)
Definition ge0 (a : fval) : bool :=
  match a with
  | Fin x => match qsign x with Lt => false | _ => true end
  | PInf => true
  | NInf => false
  | NaN => false
  end.

(** The exact sum of a list of integers. *)
Definition sum_int (l : list Z) : Z := fold_right Z.add 0 l.

(** An int64 result: numpy's integer arithmetic wraps around silently. *)
Definition wrap_int64 (z : Z) : Z := (z + 2 ^ 63) mod 2 ^ 64 - 2 ^ 63.

(** [.sum()] of an int64 column. *)
Definition sum_int64 (l : list Z) : Z := wrap_int64 (sum_int l).

(** [.mean()] of an integer column: NaN on an empty one.  pandas adds
    the values as float64, so no sum wraps. *)
Definition mean (l : list Z) : fval :=
  match l with
  | [] => NaN
  | _ => Fin (Qred (inject_Z (sum_int l) / inject_Z (Z.of_nat (List.length l))))
  end.

End Float.

(** ** Data frames: keys, grouping and sorting as pandas does them *)
Module Frame.

(** Values a frame can be grouped by, with the order [groupby] sorts its
    groups in. *)
Class Key (K : Type) : Type := kcmp : K -> K -> comparison.

#[export] Instance Key_Z : Key Z := Z.compare.
#[export] Instance Key_string : Key string := String.compare.
#[export] Instance Key_pair {A B : Type} `{Key A} `{Key B} : Key (A * B) :=
  fun x y =>
    match kcmp (fst x) (fst y) with
    | Eq => kcmp (snd x) (snd y)
    | c => c
    end.

(** A calendar day (the [date] column after [pd.to_datetime]). *)
Record Timestamp : Type := mkTimestamp {
  ts_year : Z;
  ts_month : Z;
  ts_day : Z
}.

Definition ts_key (t : Timestamp) : Z * (Z * Z) :=
  (ts_year t, (ts_month t, ts_day t)).

#[export] Instance Key_Timestamp : Key Timestamp :=
  fun a b => kcmp (ts_key a) (ts_key b).

(** Left-pad a decimal text with zeros to [width] characters. *)
Fixpoint zeros (n : nat) : string :=
  match n with
  | O => ""
  | S n' => "0" ++ zeros n'
  end.

Definition zfill (width : nat) (s : string) : string :=
  zeros (width - String.length s) ++ s.

(** [strftime('%Y-%m-%d')]. *)
Definition strftime_ymd (t : Timestamp) : string :=
  zfill 4 (Py.str_of_int (ts_year t)) ++ "-" ++
  zfill 2 (Py.str_of_int (ts_month t)) ++ "-" ++
  zfill 2 (Py.str_of_int (ts_day t)).

Definition month_abbr (m : Z) : string :=
  nth (Z.to_nat (m - 1))
      ["Jan"; "Feb"; "Mar"; "Apr"; "May"; "Jun";
       "Jul"; "Aug"; "Sep"; "Oct"; "Nov"; "Dec"] "".

(** [strftime('%b %Y')]. *)
Definition strftime_b_Y (t : Timestamp) : string :=
  month_abbr (ts_month t) ++ " " ++ zfill 4 (Py.str_of_int (ts_year t)).

(** [groupby(by)]: one group per distinct key, groups in ascending key
    order, rows of a group in frame order. *)
Fixpoint group_insert {K R : Type} `{Key K} (k : K) (r : R)
    (gs : list (K * list R)) : list (K * list R) :=
  match gs with
  | [] => [(k, [r])]
  | (k', rs) :: tl =>
      match kcmp k k' with
      | Lt => (k, [r]) :: gs
      | Eq => (k', (rs ++ [r])%list) :: tl
      | Gt => (k', rs) :: group_insert k r tl
      end
  end.

Definition groupby {K R : Type} `{Key K} (by_ : R -> K) (d : list R)
    : list (K * list R) :=
  fold_left (fun gs r => group_insert (by_ r) r gs) d [].

(** numpy's [argsort] of an integer column with the default
    [kind='quicksort']: the rows come back in ascending key order, and
    which of several rows with equal keys comes first is not specified
    (the routine is not stable and differs between builds).  The routine
    is therefore a parameter of everything that sorts, known only by its
    contract. *)
Definition Argsort : Type := forall A : Type, (A -> Z) -> list A -> list A.

Definition key_le {A : Type} (key : A -> Z) (a b : A) : Prop := key a <= key b.

Definition sorts_ascending (quicksort : Argsort) : Prop :=
  forall (A : Type) (key : A -> Z) (l : list A),
    Permutation (quicksort A key l) l /\
    StronglySorted (key_le key) (quicksort A key l).

(** One routine that meets the contract: insertion sort. *)
Fixpoint insert_by {A : Type} (key : A -> Z) (x : A) (l : list A) : list A :=
  match l with
  | [] => [x]
  | y :: tl => if key x <=? key y then x :: l else y :: insert_by key x tl
  end.

Definition insertion_sort : Argsort :=
  fun A key l => fold_right (insert_by key) [] l.

(** Another one, which puts equal keys the other way round. *)
Fixpoint insert_after {A : Type} (key : A -> Z) (x : A) (l : list A) : list A :=
  match l with
  | [] => [x]
  | y :: tl => if key x <? key y then x :: l else y :: insert_after key x tl
  end.

Definition insertion_sort_after : Argsort :=
  fun A key l => fold_right (insert_after key) [] l.

(** [sort_values(col, ascending=False)]: pandas reverses the column, sorts
    it ascending and reverses the result. *)
Definition sort_values_desc (quicksort : Argsort) {A : Type} (key : A -> Z)
    (l : list A) : list A :=
  rev (quicksort A key (rev l)).

(** [.head(n)]. *)
Definition head {A : Type} (n : nat) (l : list A) : list A := firstn n l.

(** [.shift(1)] on a float column. *)
Definition shift1 (col : list Float.fval) : list Float.fval :=
  firstn (List.length col) (Float.NaN :: col).

(** [.unique()]: distinct values in order of first appearance. *)
Fixpoint unique (l : list string) : list string :=
  match l with
  | [] => []
  | x :: tl => x :: filter (fun y => negb (String.eqb y x)) (unique tl)
  end.

(** [.min()] and [.max()] of a date column: [None] stands for [NaT]. *)
Definition date_min (l : list Timestamp) : option Timestamp :=
  match l with
  | [] => None
  | t :: tl =>
      Some (fold_left (fun m x => match kcmp x m with Lt => x | _ => m end) tl t)
  end.

Definition date_max (l : list Timestamp) : option Timestamp :=
  match l with
  | [] => None
  | t :: tl =>
      Some (fold_left (fun m x => match kcmp x m with Gt => x | _ => m end) tl t)
  end.

End Frame.

(** ** dashboard.py: the joined frame, its filters and its summaries *)
Module Dashboard.
Import Py Float Frame.

(** A row of [Products]. *)
Record product : Type := mkProduct {
  p_product_name : string;
  p_category : string;
  p_instock_items : Z
}.

(** A row of [df], the merge of [Inventory] with [Products] on
    [product_name]. *)
Record row : Type := mkRow {
  id : Z;
  product_name : string;
  date : Timestamp;
  initial_count : Z;
  final_count : Z;
  category : string;
  instock_items : Z
}.

Definition DataFrame : Type := list row.

(** The derived columns added after the merge. *)
Definition year (r : row) : Z := ts_year (date r).
Definition month (r : row) : Z := ts_month (date r).
(** ['%Y-%m'] as the pair it is built from; for four-digit years the text
    order of the key is this numeric order. *)
Definition month_year (r : row) : Z * Z := (year r, month r).
Definition quarter (r : row) : Z := (month r - 1) / 3 + 1.
Definition variance (r : row) : Z := wrap_int64 (final_count r - initial_count r).

Definition empty (d : DataFrame) : bool :=
  match d with [] => true | _ => false end.

(** Line 105, on the two sums it is computed from: the change of the
    latest day's stock against the previous day's, in percent. *)
Definition inventory_change (current_inventory_sum previous_inventory_sum : Z)
    : fval :=
  if negb (previous_inventory_sum =? 0)
  then round 2 (fmul (fdiv (fsub (of_int current_inventory_sum)
                                 (of_int previous_inventory_sum))
                           (of_int previous_inventory_sum))
                     (of_int 100))
  else of_int 0.

(** *** Filter values as the dropdowns deliver them *)

(** The year dropdown offers ['all'] and integer years; [None] when the
    property is absent. *)
Inductive year_value : Type :=
| YearNone
| YearAll
| YearInt (y : Z).

(** [column.isin(values)]. *)
Definition isin (values : list string) (s : string) : bool :=
  existsb (String.eqb s) values.

(** The three filter steps of [render_tab_content], each with its guard. *)
Definition filter_products (selected_products : option (list string))
    (filtered_df : DataFrame) : DataFrame :=
  match selected_products with
  | Some (p :: ps) =>
      filter (fun r => isin (p :: ps) (product_name r)) filtered_df
  | Some [] | None => filtered_df
  end.

Definition filter_year (selected_year : year_value) (filtered_df : DataFrame)
    : DataFrame :=
  match selected_year with
  | YearInt y =>
      if y =? 0 then filtered_df
      else filter (fun r => year r =? y) filtered_df
  | YearAll | YearNone => filtered_df
  end.

Definition filter_category (selected_category : option string)
    (filtered_df : DataFrame) : DataFrame :=
  match selected_category with
  | Some c =>
      if String.eqb c "" || String.eqb c "all" then filtered_df
      else filter (fun r => String.eqb (category r) c) filtered_df
  | None => filtered_df
  end.

(** *** Summaries behind the charts *)

Definition column {A : Type} (f : row -> A) (d : DataFrame) : list A := map f d.

(** [create_product_performance_chart]: per product, the plotted means of
    the initial count, the final count and the variance (the two standard
    deviations the frame also carries are never plotted). *)
Definition create_product_performance_chart (filtered_df : DataFrame)
    : list (string * (fval * fval * fval)) :=
  map (fun g =>
         (fst g, (mean (column initial_count (snd g)),
                  mean (column final_count (snd g)),
                  mean (column variance (snd g)))))
      (groupby product_name filtered_df).

(** [create_product_distribution_chart]: total variance per product. *)
Definition create_product_distribution_chart (filtered_df : DataFrame)
    : list (string * Z) :=
  map (fun g => (fst g, sum_int64 (column variance (snd g))))
      (groupby product_name filtered_df).

(** The grouping column of the time series. *)
Inductive bucket : Type :=
| MonthYear (ym : Z * Z)
| Quarter (q : Z)
| Year (y : Z).

Definition bucket_key (b : bucket) : Z * (Z * Z) :=
  match b with
  | MonthYear ym => (0, ym)
  | Quarter q => (1, (q, 0))
  | Year y => (2, (y, 0))
  end.

#[export] Instance Key_bucket : Key bucket :=
  fun a b => kcmp (bucket_key a) (bucket_key b).

(** [create_time_series_chart]: mean final count per (bucket, product). *)
Definition create_time_series_chart (df : DataFrame) (time_period : string)
    : list ((bucket * string) * fval) :=
  let group_col :=
    if String.eqb time_period "month" then fun r => MonthYear (month_year r)
    else if String.eqb time_period "quarter" then fun r => Quarter (quarter r)
    else fun r => Year (year r) in
  map (fun g => (fst g, mean (column final_count (snd g))))
      (groupby (fun r => (group_col r, product_name r)) df).

(** One row of [monthly_data] in [create_growth_chart]. *)
Record growth_row : Type := mkGrowth {
  g_month_year : Timestamp;
  g_initial_count : Z;
  previous : fval;
  pct_change : fval
}.

(** [dropna()]: a row with a NaN in any column goes. *)
Definition dropna (rows : list growth_row) : list growth_row :=
  filter (fun r => negb (is_nan (previous r) || is_nan (pct_change r))) rows.

(** [monthly_data] after [dropna]: month-over-month change of the total
    initial count.  The groups come out of [groupby] in key order, so the
    [sort_values('month_year')] that follows leaves them in place. *)
Definition growth_table (filtered_df : DataFrame) : list growth_row :=
  let monthly_data :=
    map (fun g => (mkTimestamp (fst (fst g)) (snd (fst g)) 1,
                   sum_int64 (column initial_count (snd g))))
        (groupby month_year filtered_df) in
  let initial := map (fun m => of_int (snd m)) monthly_data in
  let rows :=
    map (fun mp =>
           let cur := of_int (snd (fst mp)) in
           let prev := snd mp in
           mkGrowth (fst (fst mp)) (snd (fst mp)) prev
             (round 1 (fmul (fdiv (fsub cur prev) prev) (of_int 100))))
        (combine monthly_data (shift1 initial)) in
  dropna rows.

(** [create_growth_chart]: the bars drawn, as (label, height, colour). *)
Definition create_growth_chart (filtered_df : DataFrame)
    : list (string * fval * string) :=
  map (fun r =>
         (strftime_b_Y (g_month_year r), pct_change r,
          if ge0 (pct_change r) then "#4cc9f0" else "#f72585"))
      (growth_table filtered_df).

(** One row of [busy_days]. *)
Record busy_row : Type := mkBusy {
  b_date : Timestamp;
  b_product_name : string;
  transaction_count : Z
}.

Definition busy_key (b : busy_row) : Timestamp * string :=
  (b_date b, b_product_name b).

(** [groupby(['date', 'product_name']).size()]. *)
Definition busy_days (filtered_df : DataFrame) : list busy_row :=
  map (fun g => mkBusy (fst (fst g)) (snd (fst g))
                       (Z.of_nat (List.length (snd g))))
      (groupby (fun r => (date r, product_name r)) filtered_df).

(** [create_busy_days_chart]: the ten rows drawn. *)
Definition create_busy_days_chart (quicksort : Argsort) (filtered_df : DataFrame)
    : list busy_row :=
  head 10 (sort_values_desc quicksort transaction_count (busy_days filtered_df)).

(** One record of the table tab. *)
Record table_record : Type := mkTableRecord {
  t_id : Z;
  t_product_name : string;
  t_category : string;
  t_date : string;
  t_initial_count : Z;
  t_final_count : Z;
  t_instock_items : option Z
}.

(** [prepare_table_data]: [instock_items] is looked up in [Products]
    (names are its primary key); [None] where the product is unknown. *)
Definition prepare_table_data (products_df : list product)
    (filtered_df : DataFrame) : list table_record :=
  map (fun r =>
         mkTableRecord (id r) (product_name r) (category r)
           (strftime_ymd (date r)) (initial_count r) (final_count r)
           (option_map p_instock_items
              (find (fun p => String.eqb (p_product_name p) (product_name r))
                    products_df)))
      filtered_df.

(** What [render_tab_content] hands to the page: an alert, or the
    summaries of the active tab (charts that only restyle the same groups
    are left out). *)
Inductive component : Type :=
| Alert (children : string) (color : string)
| TabOverview (product_performance : list (string * (fval * fval * fval)))
              (product_distribution : list (string * Z))
| TabTime (time_series : list ((bucket * string) * fval))
          (growth : list (string * fval * string))
| TabProducts (busy : list busy_row)
| TabData (data : list table_record).

Section Globals.

(** The frames loaded when the module is imported. *)
Variable df : DataFrame.
Variable products_df : list product.
(** The sorting routine of the numpy build in use. *)
Variable quicksort : Argsort.

Definition render_tab_content (active_tab : string)
    (selected_products : option (list string)) (selected_year : year_value)
    (time_period : string) (selected_category : option string) : component :=
  let filtered_df := df in
  let filtered_df := filter_products selected_products filtered_df in
  let filtered_df := filter_year selected_year filtered_df in
  let filtered_df := filter_category selected_category filtered_df in
  if empty filtered_df then
    Alert "No data available for the selected filters. Please adjust your filter criteria."
          "warning"
  else if String.eqb active_tab "tab-overview" then
    TabOverview (create_product_performance_chart filtered_df)
                (create_product_distribution_chart filtered_df)
  else if String.eqb active_tab "tab-time" then
    TabTime (create_time_series_chart filtered_df time_period)
            (create_growth_chart filtered_df)
  else if String.eqb active_tab "tab-products" then
    TabProducts (create_busy_days_chart quicksort filtered_df)
  else if String.eqb active_tab "tab-data" then
    TabData (prepare_table_data products_df filtered_df)
  else
    Alert "Please select a valid tab" "info".

End Globals.

(** *** The assistant: store access, context document, conversation *)

Definition nl : string := String (ascii_of_nat 10) EmptyString.

(** A cell of a query result, as [to_dict('records')] boxes it.  A float
    is carried by the text [json.dumps] writes for it. *)
Inductive value : Type :=
| VNull
| VInt (n : Z)
| VFloat (repr : string)
| VStr (s : string).

(** One result row: column name to cell, in column order. *)
Definition record : Type := list (string * value).

(** The outside world a callback runs against. *)
Record World : Type := mkWorld {
  (** [sqlite3.connect] followed by [pd.read_sql_query(query, conn, params)] *)
  read_sql_query : string -> option (list value) -> outcome (list record);
  (** table name to column names, read from [sqlite_master] and
      [PRAGMA table_info] *)
  sqlite_schema : outcome (list (string * list string));
  (** [gemini_model.generate_content(prompt).text] *)
  generate_content : string -> outcome string;
  (** [traceback.format_exc()] while the exception is handled *)
  format_exc : exn -> string
}.

(** **** [json.dumps(result, indent=2)] *)

Definition dquote : string := String (ascii_of_nat 34) EmptyString.

(** A backslash escape: the backslash followed by [c]. *)
Definition esc (c : string) : string := String (ascii_of_nat 92) c.

Definition hex_digit (n : nat) : ascii :=
  nth n ["0"; "1"; "2"; "3"; "4"; "5"; "6"; "7"; "8"; "9";
         "a"; "b"; "c"; "d"; "e"; "f"]%char "0"%char.

(** Characters are code points below 256; everything outside the
    printable ASCII range is written as a four-digit [u] escape. *)
Definition json_escape_char (c : ascii) : string :=
  let n := nat_of_ascii c in
  if Nat.eqb n 34 then esc dquote
  else if Nat.eqb n 92 then esc (String c EmptyString)
  else if Nat.eqb n 10 then esc "n"
  else if Nat.eqb n 13 then esc "r"
  else if Nat.eqb n 9 then esc "t"
  else if Nat.eqb n 8 then esc "b"
  else if Nat.eqb n 12 then esc "f"
  else if (Nat.leb 32 n && Nat.leb n 126)%bool then String c EmptyString
  else esc ("u00" ++ String (hex_digit (Nat.div n 16))
                       (String (hex_digit (Nat.modulo n 16)) EmptyString)).

Fixpoint json_escape (s : string) : string :=
  match s with
  | EmptyString => ""
  | String c rest => json_escape_char c ++ json_escape rest
  end.

Definition json_string (s : string) : string :=
  dquote ++ json_escape s ++ dquote.

Definition json_value (v : value) : string :=
  match v with
  | VNull => "null"
  | VInt n => str_of_int n
  | VFloat repr => repr
  | VStr s => json_string s
  end.

(** A dict at nesting depth one of the list. *)
Definition json_record (r : record) : string :=
  match r with
  | [] => "{}"
  | _ =>
      "{" ++ nl ++
      join ("," ++ nl)
           (map (fun kv => "    " ++ json_string (fst kv) ++ ": " ++
                           json_value (snd kv)) r) ++
      nl ++ "  }"
  end.

Definition json_dumps (result : list record) : string :=
  match result with
  | [] => "[]"
  | _ =>
      "[" ++ nl ++
      join ("," ++ nl) (map (fun r => "  " ++ json_record r) result) ++
      nl ++ "]"
  end.

(** **** [run_sql_query] and [get_database_schema] *)

(** [if params:] decides which of the two calls is made. *)
Definition truthy_params (params : option (list value)) : option (list value) :=
  match params with
  | Some (p :: ps) => Some (p :: ps)
  | Some [] | None => None
  end.

Definition run_sql_query (w : World) (query : string)
    (params : option (list value)) : M (list record) :=
  try_except
    (results <- call (read_sql_query w query (truthy_params params)) ;;
     if (0 <? List.length results)%nat then ret results else ret [])%py
    (fun e =>
       print ("SQL query error: " ++ str e) ;;;
       print ("Query: " ++ query) ;;;
       print (format_exc w e) ;;;
       ret [[("error", VStr (str e))]])%py.

Definition get_database_schema (w : World) : M (list (string * list string)) :=
  try_except
    (tables <- call (sqlite_schema w) ;; ret tables)%py
    (fun e => print ("Error getting schema: " ++ str e) ;;; ret [])%py.

(** **** The conversation *)

Record message : Type := mkMessage {
  sender : string;
  text : string
}.

(** The [chat-history] store: a dict that may lack its ["messages"] key. *)
Record history_data : Type := mkHistory {
  messages : option (list message)
}.

(** The store's initial data. *)
Definition initial_history : history_data :=
  mkHistory (Some [mkMessage "ai"
    "Hello! I'm your AI analytics assistant. Ask me anything about your inventory data."]).

(** The messages a stored history holds (none when it is [None] or has
    no ["messages"] key). *)
Definition messages_of (history : option history_data) : list message :=
  match history with
  | Some h => match messages h with Some l => l | None => [] end
  | None => []
  end.

(** The catalog, in the order the dict literal lists it. *)
Definition data_queries : list (string * string) := [
  ("max_initial_count",
   "SELECT product_name, MAX(initial_count) as max_initial_count FROM Inventory");
  ("min_initial_count",
   "SELECT product_name, MIN(initial_count) as min_initial_count FROM Inventory");
  ("max_final_count",
   "SELECT product_name, MAX(final_count) as max_final_count FROM Inventory");
  ("min_final_count",
   "SELECT product_name, MIN(final_count) as min_final_count FROM Inventory");
  ("avg_initial_count",
   "SELECT product_name, AVG(initial_count) as avg_initial_count FROM Inventory GROUP BY product_name");
  ("avg_final_count",
   "SELECT product_name, AVG(final_count) as avg_final_count FROM Inventory GROUP BY product_name");
  ("top_products_by_change",
   nl ++
   "            SELECT p.product_name, p.category, " ++
   nl ++
   "            SUM(i.final_count - i.initial_count) as total_change " ++
   nl ++
   "            FROM Products p" ++
   nl ++
   "            JOIN Inventory i ON p.product_name = i.product_name" ++
   nl ++
   "            GROUP BY p.product_name" ++
   nl ++
   "            ORDER BY total_change DESC" ++
   nl ++
   "            LIMIT 5" ++
   nl ++
   "        ");
  ("category_performance",
   nl ++
   "            SELECT p.category, " ++
   nl ++
   "            SUM(i.final_count - i.initial_count) as total_change," ++
   nl ++
   "            AVG(i.final_count - i.initial_count) as avg_change" ++
   nl ++
   "            FROM Products p" ++
   nl ++
   "            JOIN Inventory i ON p.product_name = i.product_name" ++
   nl ++
   "            GROUP BY p.category" ++
   nl ++
   "            ORDER BY total_change DESC" ++
   nl ++
   "        ");
  ("trends_over_time",
   nl ++
   "            SELECT date, SUM(final_count - initial_count) as daily_change" ++
   nl ++
   "            FROM Inventory" ++
   nl ++
   "            GROUP BY date" ++
   nl ++
   "            ORDER BY date DESC" ++
   nl ++
   "            LIMIT 10" ++
   nl ++
   "        ");
  ("product_counts_by_date",
   "SELECT product_name, date, initial_count, final_count FROM Inventory ORDER BY date DESC")
].

(** [if result and len(result) > 0]. *)
Definition has_rows (result : list record) : bool :=
  match result with
  | [] => false
  | _ => (0 <? List.length result)%nat
  end.

(** The labeled block of one catalog query. *)
Definition labeled_block (key : string) (result : list record) : string :=
  nl ++ nl ++ "[" ++ key ++ "]" ++ nl ++ json_dumps result.

(** The loop over [data_queries.items()], from the text gathered so far. *)
Fixpoint context_loop (w : World) (queries : list (string * string))
    (all_data_context : string) : M string :=
  match queries with
  | [] => ret all_data_context
  | (key, query) :: rest =>
      (result <- run_sql_query w query None ;;
       context_loop w rest
         (if has_rows result
          then all_data_context ++ labeled_block key result
          else all_data_context))%py
  end.

Definition schema_info_of (db_schema : list (string * list string)) : string :=
  fold_left
    (fun schema_info tc =>
       schema_info ++ "Table '" ++ fst tc ++ "' has columns: " ++
       join ", " (snd tc) ++ ". ")
    db_schema
    ("Database tables: " ++ join ", " (map fst db_schema) ++ ". ").

(** The dataset-shape sentence; [NaT.strftime] raises on an empty frame. *)
Definition db_context_of (schema_info : string) (filtered_df : DataFrame)
    : M string :=
  match date_min (column date filtered_df), date_max (column date filtered_df) with
  | Some dmin, Some dmax =>
      ret (schema_info ++ nl ++ nl ++
           "Dataset has " ++
           str_of_int (Z.of_nat (List.length (unique (column product_name filtered_df)))) ++
           " products in categories: " ++
           join ", " (unique (column category filtered_df)) ++ ". " ++
           "Date range: " ++ strftime_ymd dmin ++ " to " ++ strftime_ymd dmax ++ ". " ++
           "Products include: " ++
           join ", " (firstn 5 (unique (column product_name filtered_df))))
  | _, _ => raise (PyError "ValueError" "NaTType does not support strftime")
  end.

Definition prompt_of (db_context all_data_context user_input : string) : string :=
  "You are an analytics assistant for Art & Decor inventory." ++ nl ++ nl ++
  "You have live access to the latest inventory data via the query results provided below. " ++ nl ++
  "You do not have direct SQL access, but you always see up-to-date data." ++ nl ++ nl ++
  "Database context:" ++ nl ++ db_context ++ nl ++ all_data_context ++ nl ++ nl ++
  "Question: " ++ user_input ++ nl ++ nl ++
  "Provide a concise, direct answer using the data provided. If the answer is not in the data, say so.".

Definition fallback_response : string :=
  "I encountered an error processing your request. Please try a more specific question about your inventory data.".

(** [text.split("```")]. *)
Fixpoint split_fence (s : string) : list string :=
  match s with
  | EmptyString => [""]
  | String "`" (String "`" (String "`" rest)) => "" :: split_fence rest
  | String c rest =>
      match split_fence rest with
      | part :: parts => String c part :: parts
      | [] => [String c EmptyString]
      end
  end.

(** [str.isspace] on one character (code points below 256). *)
Definition is_space (c : ascii) : bool :=
  let n := nat_of_ascii c in
  ((Nat.leb 9 n && Nat.leb n 13) || (Nat.leb 28 n && Nat.leb n 32) ||
   Nat.eqb n 133 || Nat.eqb n 160)%bool.

(** Truthiness of [part.strip()]. *)
Fixpoint strip_truthy (s : string) : bool :=
  match s with
  | EmptyString => false
  | String c rest => negb (is_space c) || strip_truthy rest
  end.

Inductive message_part : Type :=
| Prose (s : string)
| CodeBlock (s : string).

Inductive message_ui : Type :=
| UserMessage (children : string)
| AiMessage (children : string)
| AiMessageParts (children : list message_part).

Fixpoint message_parts (i : nat) (parts : list string) : list message_part :=
  match parts with
  | [] => []
  | part :: rest =>
      if (Nat.even i && strip_truthy part)%bool
      then Prose part :: message_parts (S i) rest
      else if Nat.odd i then CodeBlock part :: message_parts (S i) rest
      else message_parts (S i) rest
  end.

Definition render_message (msg : message) : message_ui :=
  if String.eqb (sender msg) "user" then UserMessage (text msg)
  else
    match split_fence (text msg) with
    | (_ :: _ :: _) as parts => AiMessageParts (message_parts 0 parts)
    | _ => AiMessage (text msg)
    end.

Section Conversation.

Variable df : DataFrame.

(** The filtered frame of the callback: any exception while filtering
    falls back to the whole frame. *)
Definition filtered_df_of (selected_products : option (list string))
    (selected_year : year_value) (selected_category : option string)
    : M DataFrame :=
  try_except
    (filtered_df <-
       match selected_products with
       | Some ps => ret (filter (fun r => isin ps (product_name r)) df)
       | None =>
           raise (PyError "TypeError"
             "only list-like objects are allowed to be passed to isin(), you passed a `NoneType`")
       end ;;
     filtered_df <-
       match selected_year with
       | YearAll => ret filtered_df
       | YearInt y => ret (filter (fun r => year r =? y) filtered_df)
       | YearNone =>
           raise (PyError "TypeError"
             "int() argument must be a string, a bytes-like object or a real number, not 'NoneType'")
       end ;;
     match selected_category with
     | Some c =>
         if String.eqb c "all" then ret filtered_df
         else ret (filter (fun r => String.eqb (category r) c) filtered_df)
     | None => ret (filter (fun _ => false) filtered_df)
     end)%py
    (fun e => print ("Error filtering dataframe: " ++ str e) ;;; ret df)%py.

Definition process_user_message (w : World)
    (send_clicks enter_clicks : option Z) (user_input : option string)
    (history : option history_data)
    (selected_products : option (list string)) (selected_year : year_value)
    (selected_category : option string)
    : M (list message_ui * history_data * string * string) :=
  if (negb (truthy_str user_input) ||
      (negb (truthy_int send_clicks) && negb (truthy_int enter_clicks)))%bool
  then raise PreventUpdate
  else
    let user_input := match user_input with Some s => s | None => "" end in
    (filtered_df <- filtered_df_of selected_products selected_year selected_category ;;
     let history_messages :=
       (messages_of history ++ [mkMessage "user" user_input])%list in
     all_data_context <- context_loop w data_queries "" ;;
     db_schema <- get_database_schema w ;;
     let schema_info := schema_info_of db_schema in
     db_context <- db_context_of schema_info filtered_df ;;
     let prompt := prompt_of db_context all_data_context user_input in
     ai_response <-
       try_except
         (call (generate_content w prompt))
         (fun e =>
            print ("Gemini API error: " ++ str e) ;;;
            print (format_exc w e) ;;;
            ret fallback_response) ;;
     let history_messages :=
       (history_messages ++ [mkMessage "ai" ai_response])%list in
     let messages_ui := map render_message history_messages in
     ret (messages_ui, mkHistory (Some history_messages), "", ""))%py.

(** Dash writes a callback's outputs only when it returns; when it raises
    ([PreventUpdate] or anything else) the store keeps its data. *)
Definition chat_history_after (history : option history_data)
    (result : outcome (list message_ui * history_data * string * string))
    : option history_data :=
  match result with
  | Returned (_, history', _, _) => Some history'
  | Raised _ => history
  end.

End Conversation.

End Dashboard.

(** ** realtime_dashboard.py: summary of the movement frame *)
Module RealtimeDashboard.

(** A row of the frame [load_recent_movements] returns. *)
Record movement : Type := mkMovement {
  movement_id : Z;
  product_name : string;
  category : string;
  timestamp : string;
  movement_type : string;
  quantity : Z;
  instock_items : Z
}.

Record summary_metrics : Type := mkMetrics {
  total_movements : Z;
  incoming_count : Z;
  outgoing_count : Z;
  incoming_items : Z;
  outgoing_items : Z;
  net_change : Z
}.

Definition len {A : Type} (l : list A) : Z := Z.of_nat (List.length l).

Definition empty {A : Type} (l : list A) : bool :=
  match l with [] => true | _ => false end.

(** [df['quantity'].sum()], an int64 sum. *)
Definition quantity_sum (df : list movement) : Z :=
  Float.sum_int64 (map quantity df).

Definition get_summary_metrics (df : list movement) : summary_metrics :=
  if empty df then mkMetrics 0 0 0 0 0 0
  else
    let incoming := filter (fun m => String.eqb (movement_type m) "incoming") df in
    let outgoing := filter (fun m => String.eqb (movement_type m) "outgoing") df in
    mkMetrics
      (len df)
      (len incoming)
      (len outgoing)
      (if negb (empty incoming) then quantity_sum incoming else 0)
      (if negb (empty outgoing) then quantity_sum outgoing else 0)
      (Float.wrap_int64
         ((if negb (empty incoming) then quantity_sum incoming else 0) -
          (if negb (empty outgoing) then quantity_sum outgoing else 0))).

End RealtimeDashboard.

(** ** realtime_data_gen.py: the movement generator *)
Module RealtimeDataGen.

Record product : Type := mkProduct {
  product_name : string;
  category : string;
  instock_items : Z
}.

Record movement : Type := mkMovement {
  movement_id : Z;
  m_product_name : string;
  timestamp : string;
  movement_type : string;
  quantity : Z
}.

(** The two tables of [realtime_inventory.db] and, for the AUTOINCREMENT
    key of [InventoryMovements], the table's entry in [sqlite_sequence]:
    the largest [movement_id] the table has ever held (0 before its
    first row). *)
Record database : Type := mkDatabase {
  Products : list product;
  InventoryMovements : list movement;
  sqlite_sequence : Z
}.

(** Everything one call draws from [random] and the clock. *)
Record draws : Type := mkDraws {
  (** which row [ORDER BY RANDOM() LIMIT 1] returns *)
  random_row : nat;
  (** [random.choices(['incoming', 'outgoing'], ...)] *)
  choice : string;
  (** [random.randint(1, 10)] or [random.randint(1, 3)] *)
  randint : Z;
  (** [random.randint(50, 100)] and [random.randint(100, 200)] of
      [create_database] *)
  randint_cylindrical : Z;
  randint_box : Z;
  (** [datetime.now().strftime(...)] *)
  now : string
}.

(** The draws lie in the ranges the calls ask for. *)
Definition valid_draws (d : draws) : Prop :=
  ((choice d = "incoming" /\ 1 <= randint d <= 10) \/
   (choice d = "outgoing" /\ 1 <= randint d <= 3)) /\
  50 <= randint_cylindrical d <= 100 /\
  100 <= randint_box d <= 200.

Definition create_database (d : draws) : database :=
  mkDatabase
    [mkProduct "Cylindrical Product" "Type A" (randint_cylindrical d);
     mkProduct "Box Product" "Type B" (randint_box d)]
    []
    0.

(** [movement_id INTEGER PRIMARY KEY AUTOINCREMENT]: a new row gets one
    more than the largest id the table holds or has ever held. *)
Definition next_movement_id (conn : database) : Z :=
  fold_right Z.max (sqlite_sequence conn)
             (map movement_id (InventoryMovements conn)) + 1.

(** [SELECT instock_items FROM Products WHERE product_name = ?]. *)
Definition select_instock (products : list product) (name : string) : Z :=
  match find (fun p => String.eqb (product_name p) name) products with
  | Some p => instock_items p
  | None => 0
  end.

(** [UPDATE Products SET instock_items = ? WHERE product_name = ?]. *)
Definition update_instock (products : list product) (name : string)
    (new_stock : Z) : list product :=
  map (fun p =>
         if String.eqb (product_name p) name
         then mkProduct (product_name p) (category p) new_stock
         else p)
      products.

(** The stock arithmetic of one movement: the quantity recorded and the
    stock written back. *)
Definition move_stock (movement_type : string) (randint frequency current_stock : Z)
    : Z * Z :=
  let quantity := randint * frequency in
  let quantity :=
    if String.eqb movement_type "outgoing" then
      if current_stock <? quantity then Z.max 1 current_stock else quantity
    else quantity in
  let new_stock :=
    if String.eqb movement_type "incoming"
    then current_stock + quantity
    else current_stock - quantity in
  (quantity, new_stock).

(** [generate_movement] on an open connection to the store [conn]: the
    store after the call and the value returned.  (Errors of the store
    on an open connection, which make the call return [False], are not
    part of the model.)  When the [Products] table is empty the call
    closes the connection it was given, recreates the database and goes
    on with a connection of its own (lines 98 to 105): the store it
    leaves is the recreated one, and the caller is left with a closed
    connection, see [closes_connection]. *)
Definition generate_movement (conn : database) (d : draws) (frequency : Z)
    : database * bool :=
  let conn :=
    match Products conn with
    | [] => create_database d
    | _ => conn
    end in
  let name :=
    match nth_error (Products conn)
                    (Nat.modulo (random_row d) (List.length (Products conn))) with
    | Some p => product_name p
    | None => ""
    end in
  let current_stock := select_instock (Products conn) name in
  let '(quantity, new_stock) :=
    move_stock (choice d) (randint d) frequency current_stock in
  (mkDatabase
     (update_instock (Products conn) name new_stock)
     (InventoryMovements conn ++
      [mkMovement (next_movement_id conn) name (now d) (choice d) quantity])%list
     (next_movement_id conn),
   true).

(** Whether a call on an open connection to [conn] leaves the caller's
    connection closed: [conn.close()] at line 100. *)
Definition closes_connection (conn : database) : bool :=
  match Products conn with
  | [] => true
  | _ => false
  end.

(** The loop of [simulate_realtime_data], one set of draws per iteration:
    the store and [transaction_count] at its end.  [closed] tells whether
    the connection the loop holds has been closed; on a closed connection
    [conn.cursor()] raises [sqlite3.ProgrammingError], an [sqlite3.Error],
    so the call prints the error, returns [False] and leaves the store as
    it is. *)
Fixpoint simulate_loop (conn : database) (closed : bool) (frequency : Z)
    (ds : list draws) (transaction_count : Z) : database * Z :=
  match ds with
  | [] => (conn, transaction_count)
  | d :: ds =>
      if closed then simulate_loop conn true frequency ds transaction_count
      else
        let '(conn', ok) := generate_movement conn d frequency in
        simulate_loop conn' (closes_connection conn) frequency ds
                      (if ok then transaction_count + 1 else transaction_count)
  end.

(** [simulate_realtime_data] from the connection of line 157 on: the
    store the loop leaves. *)
Definition simulate (conn : database) (frequency : Z) (ds : list draws)
    : database :=
  fst (simulate_loop conn false frequency ds 0).

End RealtimeDataGen.

(** ** Notions the properties are stated with *)
Module Spec.
Import Py Float Frame Dashboard.

(** What [run_sql_query] hands back for a query run without parameters. *)
Definition query_result (w : World) (query : string) : list record :=
  match read_sql_query w query None with
  | Returned rows => rows
  | Raised e => [[("error", VStr (str e))]]
  end.

Definition concat_all (l : list string) : string :=
  fold_right String.append "" l.

(** The labeled blocks of the catalog entries whose result is not empty,
    in catalog order. *)
Definition context_blocks (w : World) (queries : list (string * string))
    : list string :=
  map (fun kq => labeled_block (fst kq) (query_result w (snd kq)))
      (filter (fun kq => has_rows (query_result w (snd kq))) queries).

(** A label occurs in a document. *)
Definition has_label (key doc : string) : bool :=
  match String.index 0 ("[" ++ key ++ "]") doc with
  | Some _ => true
  | None => false
  end.

(** One firing of the chat callback: the world it runs against and the
    values Dash passes in. *)
Record submission : Type := mkSubmission {
  world : World;
  send_clicks : option Z;
  enter_clicks : option Z;
  user_input : option string;
  selected_products : option (list string);
  selected_year : year_value;
  selected_category : option string
}.

Definition input_text (s : submission) : string :=
  match user_input s with Some t => t | None => "" end.

Section Submissions.

Variable df : DataFrame.

Definition run_callback (s : submission) (history : option history_data)
    : M (list message_ui * history_data * string * string) :=
  process_user_message df (world s) (send_clicks s) (enter_clicks s)
    (user_input s) history (selected_products s) (selected_year s)
    (selected_category s).

(** The store and the printed lines after one firing. *)
Definition submit (state : option history_data * stdout) (s : submission)
    : option history_data * stdout :=
  let r := run_callback s (fst state) (snd state) in
  (chat_history_after (fst state) (fst r), snd r).

Definition submit_all (state : option history_data * stdout)
    (subs : list submission) : option history_data * stdout :=
  fold_left submit subs state.

(** The frame the callback describes in its context. *)
Definition filtered_frame (selected_products : option (list string))
    (selected_year : year_value) (selected_category : option string)
    : DataFrame :=
  match fst (filtered_df_of df selected_products selected_year selected_category [])
  with
  | Returned d => d
  | Raised _ => df
  end.

(** The callback up to the prompt it sends to the model. *)
Definition prompt_stage (w : World) (user_text : string)
    (selected_products : option (list string)) (selected_year : year_value)
    (selected_category : option string) : M string :=
  (filtered_df <- filtered_df_of df selected_products selected_year selected_category ;;
   all_data_context <- context_loop w data_queries "" ;;
   db_schema <- get_database_schema w ;;
   db_context <- db_context_of (schema_info_of db_schema) filtered_df ;;
   ret (prompt_of db_context all_data_context user_text))%py.

End Submissions.

(** The two messages one answered firing adds. *)
Definition turn (user_text reply : string) : list message :=
  [mkMessage "user" user_text; mkMessage "ai" reply].

(** The test that opens [process_user_message]: true when it raises
    [PreventUpdate]. *)
Definition guard (send_clicks enter_clicks : option Z)
    (user_input : option string) : bool :=
  (negb (truthy_str user_input) ||
   (negb (truthy_int send_clicks) && negb (truthy_int enter_clicks)))%bool.

(** The turns of a run of firings, given the reply of each. *)
Definition turns (subs : list submission) (replies : list string)
    : list message :=
  List.concat (map (fun sr => turn (input_text (fst sr)) (snd sr))
              (combine subs replies)).

(** The strict order of grouping keys, its laws, and counting helpers
    for groups. *)
Definition klt {K : Type} `{Key K} (a b : K) : Prop := kcmp a b = Lt.

Class KeyLaws (K : Type) `{Key K} : Prop := {
  kcmp_eq : forall a b : K, kcmp a b = Eq <-> a = b;
  kcmp_antisym : forall a b : K, kcmp a b = CompOpp (kcmp b a);
  kcmp_trans : forall a b c : K, kcmp a b = Lt -> kcmp b c = Lt -> kcmp a c = Lt
}.

Definition is_eq (c : comparison) : bool :=
  match c with Eq => true | _ => false end.

(** Rows filed under key [k] over all groups. *)
Fixpoint filed {K R : Type} `{Key K} (k : K) (gs : list (K * list R)) : nat :=
  match gs with
  | [] => 0
  | (k', rs) :: tl =>
      ((if is_eq (kcmp k' k) then List.length rs else 0) + filed k tl)%nat
  end.

(** Rows of a frame whose key is [k]. *)
Definition rows_with {K R : Type} `{Key K} (by_ : R -> K) (k : K) (d : list R)
    : nat :=
  List.length (filter (fun r => is_eq (kcmp (by_ r) k)) d).

(** The grouping key of the busiest-day summary. *)
Definition date_product (r : row) : Timestamp * string :=
  (date r, product_name r).

(** The number of rows of a frame on a given (date, product) pair. *)
Definition rows_on (k : Timestamp * string) (d : DataFrame) : nat :=
  List.length
    (filter (fun r =>
               match kcmp (date r, product_name r) k with
               | Eq => true
               | _ => false
               end) d).

(** The order of the busiest-day rows: no row before a row with more
    transactions. *)
Definition by_count_desc (a b : busy_row) : Prop :=
  transaction_count b <= transaction_count a.

(** The order with ties broken by descending date. *)
Definition count_then_latest_date (a b : busy_row) : Prop :=
  transaction_count b < transaction_count a \/
  (transaction_count a = transaction_count b /\
   kcmp (b_date a) (b_date b) <> Lt).

End Spec.

(** ** Sample frames and worlds *)
Module Examples.
Import Py Float Frame Dashboard.

Definition df0 : DataFrame :=
  [mkRow 1 "Box Product" (mkTimestamp 2023 5 1) 310 305 "Type B" 120;
   mkRow 2 "Cylindrical Product" (mkTimestamp 2023 5 1) 160 166 "Type A" 70;
   mkRow 3 "Box Product" (mkTimestamp 2023 5 2) 305 312 "Type B" 120].

Definition schema0 : list (string * list string) :=
  [("Products", ["product_name"; "category"; "instock_items"]);
   ("Inventory", ["id"; "product_name"; "date"; "initial_count"; "final_count"])].

Definition one_row : list record :=
  [[("product_name", VStr "Box Product"); ("max_initial_count", VInt 310)]].

(** Every query answers, the model answers. *)
Definition w_ok : World :=
  mkWorld (fun _ _ => Returned one_row) (Returned schema0)
          (fun _ => Returned "Box Product has the highest initial count.")
          (fun _ => "Traceback (most recent call last): ...").

(** The first catalog query fails, the others answer. *)
Definition w_query_fails : World :=
  mkWorld
    (fun query _ =>
       if String.eqb query
            "SELECT product_name, MAX(initial_count) as max_initial_count FROM Inventory"
       then Raised (PyError "DatabaseError" "database is locked")
       else Returned one_row)
    (Returned schema0)
    (fun _ => Returned "Box Product has the highest initial count.")
    (fun _ => "Traceback (most recent call last): ...").

(** The model call fails. *)
Definition w_model_fails : World :=
  mkWorld (fun _ _ => Returned one_row) (Returned schema0)
          (fun _ => Raised (PyError "ResourceExhausted" "429 quota exceeded"))
          (fun _ => "Traceback (most recent call last): ...").

End Examples.

(** ** dashboard.py: the export callback *)
Module DashboardExport.
Import Py Float Frame Dashboard.

Section Globals.

Variable df : DataFrame.
Variable products_df : list product.

(** [export_data]: [None] when the button was never clicked, otherwise
    the rows handed to [dcc.send_data_frame] and the file name.  Nothing
    is caught here: a missing product list or year raises. *)
Definition export_data (n_clicks : option Z)
    (selected_products : option (list string)) (selected_year : year_value)
    (selected_category : option string)
    : M (option (list table_record * string)) :=
  if truthy_int n_clicks then
    (filtered_df <-
       match selected_products with
       | Some ps => ret (filter (fun r => isin ps (product_name r)) df)
       | None =>
           raise (PyError "TypeError"
             "only list-like objects are allowed to be passed to isin(), you passed a `NoneType`")
       end ;;
     filtered_df <-
       match selected_year with
       | YearAll => ret filtered_df
       | YearInt y => ret (filter (fun r => year r =? y) filtered_df)
       | YearNone =>
           raise (PyError "TypeError"
             "int() argument must be a string, a bytes-like object or a real number, not 'NoneType'")
       end ;;
     let filtered_df :=
       match selected_category with
       | Some c =>
           if String.eqb c "all" then filtered_df
           else filter (fun r => String.eqb (category r) c) filtered_df
       | None => filter (fun _ => false) filtered_df
       end in
     let export_df :=
       map (fun r =>
              mkTableRecord (id r) (product_name r) (category r)
                (strftime_ymd (date r)) (initial_count r) (final_count r)
                (option_map p_instock_items
                   (find (fun p => String.eqb (p_product_name p) (product_name r))
                         products_df)))
           filtered_df in
     ret (Some (export_df, "art_decor_inventory_data.csv")))%py
  else ret None.

End Globals.

End DashboardExport.

(** ** Further notions the properties are stated with *)
Module Notions.
Import Py Float Frame Dashboard.

(** The total initial count of each month of a frame, in month order, as
    [groupby('month_year').agg({'initial_count': 'sum'})] computes it. *)
Definition monthly_totals (d : DataFrame) : list Z :=
  map (fun g => sum_int64 (column initial_count (snd g))) (groupby month_year d).

(** The sum of a column over all groups. *)
Definition group_sum {K R : Type} (f : R -> Z) (gs : list (K * list R)) : Z :=
  sum_int (map (fun g => sum_int (map f (snd g))) gs).

(** What the context loop prints for one catalog entry. *)
Definition query_log (w : World) (kq : string * string) : list string :=
  match read_sql_query w (snd kq) None with
  | Returned _ => []
  | Raised e =>
      [("SQL query error: " ++ str e)%string;
       ("Query: " ++ snd kq)%string;
       format_exc w e]
  end.

(** The quantity of a movement with its sign: incoming adds, anything
    else takes away. *)
Definition signed_quantity (m : RealtimeDataGen.movement) : Z :=
  if String.eqb (RealtimeDataGen.movement_type m) "incoming"
  then RealtimeDataGen.quantity m
  else - RealtimeDataGen.quantity m.

Definition total_stock (conn : RealtimeDataGen.database) : Z :=
  sum_int (map RealtimeDataGen.instock_items (RealtimeDataGen.Products conn)).

Definition net_movement (ms : list RealtimeDataGen.movement) : Z :=
  sum_int (map signed_quantity ms).

(** The month rows of the growth chart before the change is computed,
    and the row built from a month and the total before it. *)
Definition monthly_data (d : DataFrame) : list (Timestamp * Z) :=
  map (fun g => (mkTimestamp (fst (fst g)) (snd (fst g)) 1,
                 sum_int64 (column initial_count (snd g))))
      (groupby month_year d).

Definition growth_row_of (mp : (Timestamp * Z) * fval) : growth_row :=
  mkGrowth (fst (fst mp)) (snd (fst mp)) (snd mp)
    (round 1 (fmul (fdiv (fsub (of_int (snd (fst mp))) (snd mp)) (snd mp))
                   (of_int 100))).

(** The character a code fence is made of. *)
Definition backtick : ascii := ascii_of_nat 96.

(** Every character but the comma. *)
Definition not_comma (c : ascii) : bool := negb (Ascii.eqb c ","%char).

(** The two row selections of [get_summary_metrics]. *)
Definition is_incoming (m : RealtimeDashboard.movement) : bool :=
  String.eqb (RealtimeDashboard.movement_type m) "incoming".
Definition is_outgoing (m : RealtimeDashboard.movement) : bool :=
  String.eqb (RealtimeDashboard.movement_type m) "outgoing".

End Notions.

(** ** realtime_dashboard.py: the KPI callback *)
Module RealtimeKpi.
Import RealtimeDashboard.

(** Digits, least significant first, with a comma before every fourth,
    seventh, ... digit; [k] digits of the current group are out. *)
Fixpoint group_thousands (digits : list ascii) (k : nat) : list ascii :=
  match digits with
  | [] => []
  | c :: tl =>
      if Nat.eqb k 3 then ","%char :: c :: group_thousands tl 1
      else c :: group_thousands tl (S k)
  end.

(** The format [{n:,}] of an int. *)
Definition format_thousands (n : Z) : string :=
  let sign := if n <? 0 then "-" else "" in
  let digits := list_ascii_of_string (Py.str_of_int (Z.abs n)) in
  (sign ++ string_of_list_ascii (rev (group_thousands (rev digits) 0)))%string.

(** [update_kpi_values]; [None] stands for an absent or empty JSON text,
    [Some df] for the frame parsed from it. *)
Definition update_kpi_values (movements_json : option (list movement))
    : string * string * string * string * string :=
  match movements_json with
  | None => ("0", "0", "0", "kpi-value neutral", "0")
  | Some movements_df =>
      let metrics := get_summary_metrics movements_df in
      let incoming := format_thousands (incoming_items metrics) in
      let outgoing := format_thousands (outgoing_items metrics) in
      let net_change := net_change metrics in
      let '(net_change_formatted, net_change_class) :=
        if 0 <? net_change then
          (("+" ++ format_thousands net_change)%string, "kpi-value positive")
        else if net_change <? 0 then
          (format_thousands net_change, "kpi-value negative")
        else ("0", "kpi-value neutral") in
      let total_movements := format_thousands (total_movements metrics) in
      (incoming, outgoing, net_change_formatted, net_change_class,
       total_movements)
  end.

End RealtimeKpi.

(* ================================================================== *)
(** * Part II: properties *)
(* ================================================================== *)

Import Py Float Frame Spec.

(** ** The filter composer *)
Section FilterFacts.
Import Dashboard.

Lemma filter_true_id {A : Type} (l : list A) : filter (fun _ => true) l = l.
Proof.
  induction l as [|x l IH]; simpl; [reflexivity | now rewrite IH].
Qed.

Lemma filter_swap {A : Type} (p q : A -> bool) (l : list A) :
  filter p (filter q l) = filter q (filter p l).
Proof.
  induction l as [|x l IH]; simpl; [reflexivity|].
  destruct (q x) eqn:Hq, (p x) eqn:Hp; simpl; rewrite ?Hq, ?Hp, IH; reflexivity.
Qed.

(** Each filter step is a [filter] by some row predicate. *)
Lemma filter_products_as_filter sel :
  exists p, forall d, filter_products sel d = filter p d.
Proof.
  destruct sel as [[|x xs]|].
  - exists (fun _ => true). intros d. simpl. now rewrite filter_true_id.
  - eexists. intros d. reflexivity.
  - exists (fun _ => true). intros d. simpl. now rewrite filter_true_id.
Qed.

Lemma filter_year_as_filter sel :
  exists p, forall d, filter_year sel d = filter p d.
Proof.
  destruct sel as [| |y]; simpl.
  1,2: exists (fun _ => true); intros d; now rewrite filter_true_id.
  destruct (y =? 0).
  - exists (fun _ => true). intros d. now rewrite filter_true_id.
  - eexists. intros d. reflexivity.
Qed.

Lemma filter_category_as_filter sel :
  exists p, forall d, filter_category sel d = filter p d.
Proof.
  destruct sel as [c|]; simpl.
  - destruct (String.eqb c "" || String.eqb c "all")%bool.
    + exists (fun _ => true). intros d. now rewrite filter_true_id.
    + eexists. intros d. reflexivity.
  - exists (fun _ => true). intros d. now rewrite filter_true_id.
Qed.

(** [render_tab_content] decides on the frame left by the three steps in
    the order products, year, category. *)
Lemma render_tab_content_on_filtered df products_df quicksort tab sp sy tp sc :
  filter_category sc (filter_year sy (filter_products sp df)) = [] ->
  render_tab_content df products_df quicksort tab sp sy tp sc =
  Alert "No data available for the selected filters. Please adjust your filter criteria."
        "warning".
Proof.
  intros H. unfold render_tab_content. rewrite H. reflexivity.
Qed.

End FilterFacts.

(** C9: the three filter steps of [render_tab_content] give the same
    frame in each of the six orders, and the sentinel values (no product
    list or an empty one, the year ['all'] or none, the category ['all'],
    the empty text or none) leave the frame as it is. *)
Theorem filter_steps_commute :
  forall (df : Dashboard.DataFrame) (selected_products : option (list string))
         (selected_year : Dashboard.year_value) (selected_category : option string),
    let P := Dashboard.filter_products selected_products in
    let Y := Dashboard.filter_year selected_year in
    let C := Dashboard.filter_category selected_category in
    let filtered_df := C (Y (P df)) in
    (C (P (Y df)) = filtered_df /\
     Y (C (P df)) = filtered_df /\
     Y (P (C df)) = filtered_df /\
     P (C (Y df)) = filtered_df /\
     P (Y (C df)) = filtered_df) /\
    (Dashboard.filter_products None df = df /\
     Dashboard.filter_products (Some []) df = df) /\
    (Dashboard.filter_year Dashboard.YearAll df = df /\
     Dashboard.filter_year Dashboard.YearNone df = df) /\
    (Dashboard.filter_category (Some "all") df = df /\
     Dashboard.filter_category None df = df).
Proof.
  intros df sp sy sc P Y C filtered_df.
  destruct (filter_products_as_filter sp) as [p Hp].
  destruct (filter_year_as_filter sy) as [y Hy].
  destruct (filter_category_as_filter sc) as [c Hc].
  subst filtered_df P Y C.
  split; [|repeat split; reflexivity].
  rewrite !Hp, !Hy, !Hc.
  repeat split.
  - now rewrite (filter_swap p y).
  - now rewrite (filter_swap y c).
  - rewrite (filter_swap p c). now rewrite (filter_swap y c).
  - rewrite (filter_swap p c). now rewrite (filter_swap p y).
  - rewrite (filter_swap y c), (filter_swap p c). now rewrite (filter_swap p y).
Qed.

(** ** Empty selections *)

(** C5: when the filters leave no row, [render_tab_content] returns the
    no-data alert for every tab and granularity, before any summary is
    computed, and [get_summary_metrics] of an empty movement frame is the
    all-zero record. *)
Theorem empty_selection_gives_explicit_result :
  forall (df : Dashboard.DataFrame) (products_df : list Dashboard.product)
         (quicksort : Argsort) (active_tab time_period : string)
         (selected_products : option (list string))
         (selected_year : Dashboard.year_value)
         (selected_category : option string),
    Dashboard.filter_category selected_category
      (Dashboard.filter_year selected_year
         (Dashboard.filter_products selected_products df)) = [] ->
    Dashboard.render_tab_content df products_df quicksort active_tab
      selected_products selected_year time_period selected_category =
    Dashboard.Alert
      "No data available for the selected filters. Please adjust your filter criteria."
      "warning" /\
    RealtimeDashboard.get_summary_metrics [] =
    RealtimeDashboard.mkMetrics 0 0 0 0 0 0.
Proof.
  intros. split.
  - now apply render_tab_content_on_filtered.
  - reflexivity.
Qed.

(** A frame with one 2023 row, filtered to the year 2022. *)
Lemma empty_selection_witness :
  Dashboard.render_tab_content
    [Dashboard.mkRow 1 "Box Product" (mkTimestamp 2023 5 1) 10 12 "Type B" 12]
    [] insertion_sort "tab-time" (Some ["Box Product"]) (Dashboard.YearInt 2022)
    "month" (Some "all") =
  Dashboard.Alert
    "No data available for the selected filters. Please adjust your filter criteria."
    "warning" /\
  RealtimeDashboard.get_summary_metrics [] =
  RealtimeDashboard.mkMetrics 0 0 0 0 0 0.
Proof.
  apply (empty_selection_gives_explicit_result
           [Dashboard.mkRow 1 "Box Product" (mkTimestamp 2023 5 1) 10 12 "Type B" 12]
           [] insertion_sort).
  reflexivity.
Defined.

(** ** Growth percentages *)
Section GrowthFacts.
Import Dashboard.

Lemma qsign_Qred (x : Q) : qsign (Qred x) = qsign x.
Proof.
  unfold qsign.
  pose proof (Qred_correct x) as H. unfold Qeq in H.
  destruct (Qred x) as [n d], x as [m e]; simpl in *.
  rewrite (Zmult_compare_compat_r n 0 (Zpos e)) by reflexivity.
  rewrite (Zmult_compare_compat_r m 0 (Zpos d)) by reflexivity.
  simpl (0 * _). now rewrite H.
Qed.

Lemma qsign_sub_zero (c : Z) :
  qsign (inject_Z c - inject_Z 0) = (c ?= 0).
Proof.
  unfold qsign. simpl. now rewrite Z.mul_1_r, Z.add_0_r.
Qed.

(** The growth cell of a month that follows a month with total 0: an
    infinity with the sign of the month's own total, or NaN when that is
    0 as well. *)
Lemma growth_cell_zero_previous (c : Z) :
  round 1 (fmul (fdiv (fsub (of_int c) (of_int 0)) (of_int 0)) (of_int 100)) =
  match c ?= 0 with
  | Gt => PInf
  | Lt => NInf
  | Eq => NaN
  end.
Proof.
  unfold of_int, fsub, fdiv.
  replace (qsign (inject_Z 0)) with Eq by reflexivity.
  rewrite qsign_Qred, qsign_sub_zero.
  destruct (c ?= 0); reflexivity.
Qed.

(** The guarded sibling on line 105 answers 0 there. *)
Lemma inventory_change_zero_previous (current_inventory_sum : Z) :
  inventory_change current_inventory_sum 0 = of_int 0.
Proof. reflexivity. Qed.

End GrowthFacts.

(** C1 (at the failing input): January 2023 totals 0 and February 2023
    totals 5; the growth chart draws one bar, for February, of height
    plus infinity, where the guarded [inventory_change] gives 0. *)
Theorem growth_chart_after_zero_month :
  Dashboard.create_growth_chart
    [Dashboard.mkRow 1 "Box Product" (mkTimestamp 2023 1 31) 0 4 "Type B" 9;
     Dashboard.mkRow 2 "Box Product" (mkTimestamp 2023 2 1) 5 9 "Type B" 9] =
  [("Feb 2023", PInf, "#4cc9f0")] /\
  Dashboard.inventory_change 5 0 = Fin 0.
Proof. split; reflexivity. Qed.

(** ** The movement generator *)
Section GeneratorFacts.
Import RealtimeDataGen.

(** From a stock of at least 1, an incoming or outgoing movement of a
    non-negative quantity leaves no negative stock. *)
Lemma move_stock_from_positive (movement_type : string)
    (randint frequency current_stock : Z) :
  movement_type = "incoming" \/ movement_type = "outgoing" ->
  1 <= current_stock -> 0 <= randint * frequency ->
  0 <= snd (move_stock movement_type randint frequency current_stock).
Proof.
  intros [-> | ->] Hs Hq; unfold move_stock; simpl.
  - lia.
  - destruct (current_stock <? randint * frequency) eqn:Hlt; simpl.
    + lia.
    + apply Z.ltb_ge in Hlt. lia.
Qed.

(** An outgoing movement on an empty stock still moves one item. *)
Lemma move_stock_from_zero (randint frequency : Z) :
  0 < randint * frequency ->
  move_stock "outgoing" randint frequency 0 = (1, -1).
Proof.
  intros Hq. unfold move_stock. simpl.
  destruct (0 <? randint * frequency) eqn:Hlt; [reflexivity|].
  apply Z.ltb_ge in Hlt. lia.
Qed.

End GeneratorFacts.

(** C4 (at the failing input): a fresh database with 50 cylindrical
    items and three outgoing movements of the cylindrical product at
    frequency 10, each drawing 3: the stock goes 50, 20, 0 and then -1. *)
Theorem outgoing_movement_drives_stock_negative :
  let d := RealtimeDataGen.mkDraws 0 "outgoing" 3 50 100 "2024-01-01 00:00:00" in
  let conn := RealtimeDataGen.create_database d in
  RealtimeDataGen.valid_draws d /\
  map RealtimeDataGen.instock_items
      (RealtimeDataGen.Products (RealtimeDataGen.simulate conn 10 [d; d])) =
  [0; 100] /\
  map RealtimeDataGen.instock_items
      (RealtimeDataGen.Products (RealtimeDataGen.simulate conn 10 [d; d; d])) =
  [-1; 100] /\
  map RealtimeDataGen.quantity
      (RealtimeDataGen.InventoryMovements
         (RealtimeDataGen.simulate conn 10 [d; d; d])) =
  [30; 20; 1].
Proof.
  cbv zeta. split; [|repeat split; reflexivity].
  unfold RealtimeDataGen.valid_draws. simpl.
  split; [right; split; [reflexivity | lia] | lia].
Qed.

(** ** Store access and the context document *)
Section StoreFacts.
Import Dashboard Spec.

Lemma string_app_assoc (a b c : string) : ((a ++ b) ++ c = a ++ (b ++ c))%string.
Proof.
  induction a as [|x a IH]; simpl; [reflexivity | now rewrite IH].
Qed.

Lemma string_app_nil_r (a : string) : (a ++ "" = a)%string.
Proof.
  induction a as [|x a IH]; simpl; [reflexivity | now rewrite IH].
Qed.

(** [run_sql_query] always returns; without parameters it returns
    [query_result]. *)
Lemma run_sql_query_returns (w : World) (query : string) (out : stdout) :
  exists out', run_sql_query w query None out = (Returned (query_result w query), out').
Proof.
  unfold run_sql_query, query_result, try_except, bind, call, ret, print.
  simpl. destruct (read_sql_query w query None) as [rows|e].
  - exists out. destruct rows; reflexivity.
  - eexists. reflexivity.
Qed.

Lemma has_rows_error_record (e : exn) :
  has_rows [[("error", VStr (str e))]] = true.
Proof. reflexivity. Qed.

(** The loop appends, to the text it starts from, the blocks of the
    queries with a non-empty result. *)
Lemma context_loop_blocks (w : World) (queries : list (string * string)) :
  forall (ctx : string) (out : stdout),
  exists out',
    context_loop w queries ctx out =
    (Returned (ctx ++ concat_all (context_blocks w queries))%string, out').
Proof.
  induction queries as [|[key query] rest IH]; intros ctx out.
  - exists out. unfold context_blocks. simpl. now rewrite string_app_nil_r.
  - simpl. unfold bind at 1.
    destruct (run_sql_query_returns w query out) as [out1 ->].
    unfold context_blocks. simpl.
    destruct (has_rows (query_result w query)) eqn:Hrows.
    + destruct (IH (ctx ++ labeled_block key (query_result w query))%string out1)
        as [out2 ->].
      exists out2. simpl. now rewrite string_app_assoc.
    + apply IH.
Qed.

(** A listed query with a non-empty result has its block in the list. *)
Lemma block_of_listed_query (w : World) (queries : list (string * string))
    (key query : string) :
  In (key, query) queries ->
  has_rows (query_result w query) = true ->
  In (labeled_block key (query_result w query)) (context_blocks w queries).
Proof.
  intros Hin Hrows. unfold context_blocks.
  apply in_map_iff. exists (key, query). split; [reflexivity|].
  apply filter_In. split; [exact Hin | exact Hrows].
Qed.

End StoreFacts.

(** C10: [run_sql_query] returns for every query and world: the rows of
    a successful query (the empty list when there are none), and after a
    failure a list of one record mapping ["error"] to the error text,
    which passes the caller's non-empty test like a data row; the failure
    is printed with the query and the traceback. *)
Theorem run_sql_query_total :
  forall (w : Dashboard.World) (query : string)
         (params : option (list Dashboard.value)) (out : stdout),
  exists (result : list Dashboard.record) (out' : stdout),
    Dashboard.run_sql_query w query params out = (Returned result, out') /\
    match Dashboard.read_sql_query w query (Dashboard.truthy_params params) with
    | Returned rows => result = rows /\ out' = out
    | Raised e =>
        result = [[("error", Dashboard.VStr (str e))]] /\
        Dashboard.has_rows result = true /\
        out' = (out ++ [("SQL query error: " ++ str e)%string;
                        ("Query: " ++ query)%string;
                        Dashboard.format_exc w e])%list
    end.
Proof.
  intros w query params out.
  unfold Dashboard.run_sql_query, try_except, bind, call, ret, print.
  destruct (Dashboard.read_sql_query w query (Dashboard.truthy_params params))
    as [rows|e].
  - exists rows, out. split; [|split; reflexivity].
    destruct rows; reflexivity.
  - eexists. eexists. split; [reflexivity|].
    repeat split. now rewrite <- !app_assoc.
Qed.

(** C2 (as the code has it): the context loop returns for every world;
    the document is the run of labeled blocks, in catalog order, of the
    queries whose result is not empty, and a failed query is among them:
    its block is kept and carries the one-record error list. *)
Theorem context_keeps_block_of_failed_query :
  forall (w : Dashboard.World) (out : stdout),
    (exists out',
       Dashboard.context_loop w Dashboard.data_queries "" out =
       (Returned (Spec.concat_all (Spec.context_blocks w Dashboard.data_queries)),
        out')) /\
    (forall (key query : string) (e : exn),
       In (key, query) Dashboard.data_queries ->
       Dashboard.read_sql_query w query None = Raised e ->
       Spec.query_result w query = [[("error", Dashboard.VStr (str e))]] /\
       Dashboard.has_rows (Spec.query_result w query) = true /\
       In (Dashboard.labeled_block key [[("error", Dashboard.VStr (str e))]])
          (Spec.context_blocks w Dashboard.data_queries)).
Proof.
  intros w out. split.
  - apply (context_loop_blocks w Dashboard.data_queries "" out).
  - intros key query e Hin He.
    assert (Hres : Spec.query_result w query = [[("error", Dashboard.VStr (str e))]])
      by (unfold Spec.query_result; now rewrite He).
    split; [exact Hres|]. split; [now rewrite Hres|].
    rewrite <- Hres. now apply block_of_listed_query; [|rewrite Hres].
Qed.

(** ** The conversation callback *)
Section ConversationFacts.
Import Dashboard Spec.

Variable df : DataFrame.

Lemma bind_returned {A B : Type} (m : M A) (k : A -> M B) out a out' :
  m out = (Returned a, out') -> bind m k out = k a out'.
Proof. intros H. unfold bind. now rewrite H. Qed.

Lemma bind_raised {A B : Type} (m : M A) (k : A -> M B) out e out' :
  m out = (Raised e, out') -> bind m k out = (Raised e, out').
Proof. intros H. unfold bind. now rewrite H. Qed.

(** Filtering never raises out of its [try]. *)
Lemma filtered_df_of_returns sp sy sc out :
  exists out',
    filtered_df_of df sp sy sc out = (Returned (filtered_frame df sp sy sc), out').
Proof.
  unfold filtered_frame, filtered_df_of, try_except, bind, ret, raise, print.
  destruct sp as [ps|], sy as [| |y], sc as [c|]; simpl;
    try (destruct (String.eqb c "all")); simpl; eexists; reflexivity.
Qed.

Lemma get_database_schema_returns w out :
  exists db_schema out',
    get_database_schema w out = (Returned db_schema, out').
Proof.
  unfold get_database_schema, try_except, bind, call, ret, print.
  destruct (sqlite_schema w); eexists; eexists; reflexivity.
Qed.

Lemma db_context_of_nonempty schema_info (filtered_df : DataFrame) :
  filtered_df <> [] ->
  exists db_context,
    forall out, db_context_of schema_info filtered_df out = (Returned db_context, out).
Proof.
  intros Hne. destruct filtered_df as [|r rest]; [contradiction|].
  unfold db_context_of. simpl. eexists. intros out. reflexivity.
Qed.

Lemma db_context_of_empty schema_info out :
  db_context_of schema_info [] out =
  (Raised (PyError "ValueError" "NaTType does not support strftime"), out).
Proof. reflexivity. Qed.

(** The guarded model call returns the model's text or the fallback. *)
Lemma model_call_returns w prompt out :
  exists ai_response out',
    try_except (call (generate_content w prompt))
      (fun e =>
         print ("Gemini API error: " ++ str e) ;;;
         print (format_exc w e) ;;;
         ret fallback_response)%py out = (Returned ai_response, out').
Proof.
  unfold try_except, call, bind, print, ret.
  destruct (generate_content w prompt); eexists; eexists; reflexivity.
Qed.

Lemma process_user_message_guarded w send enter ui h sp sy sc out :
  guard send enter ui = true ->
  process_user_message df w send enter ui h sp sy sc out =
  (Raised PreventUpdate, out).
Proof.
  unfold guard, process_user_message. intros ->. reflexivity.
Qed.

(** Past the guard and with a non-empty frame the callback returns the
    stored messages followed by the user's text and one reply. *)
Lemma process_user_message_returns w send enter ui h sp sy sc out :
  guard send enter ui = false ->
  filtered_frame df sp sy sc <> [] ->
  exists reply out',
    process_user_message df w send enter ui h sp sy sc out =
    (Returned
       (map render_message
            (messages_of h ++ turn (match ui with Some s => s | None => "" end) reply)%list,
        mkHistory
          (Some (messages_of h ++ turn (match ui with Some s => s | None => "" end) reply)%list),
        "", ""),
     out').
Proof.
  intros Hg Hne. unfold process_user_message.
  fold (guard send enter ui). rewrite Hg.
  destruct (filtered_df_of_returns sp sy sc out) as [o1 H1].
  rewrite (bind_returned _ _ _ _ _ H1).
  destruct (context_loop_blocks w data_queries "" o1) as [o2 H2].
  rewrite (bind_returned _ _ _ _ _ H2).
  destruct (get_database_schema_returns w o2) as [db_schema [o3 H3]].
  rewrite (bind_returned _ _ _ _ _ H3).
  destruct (db_context_of_nonempty (schema_info_of db_schema) _ Hne) as [dbc H4].
  rewrite (bind_returned _ _ _ _ _ (H4 o3)).
  match goal with
  | |- context [generate_content w ?p] =>
      destruct (model_call_returns w p o3) as [reply [o5 H5]]
  end.
  rewrite (bind_returned _ _ _ _ _ H5).
  exists reply, o5. unfold ret, turn. now rewrite <- !app_assoc.
Qed.

(** With an empty frame the callback raises while it formats the date
    range, after the context loop and the schema reader have run. *)
Lemma process_user_message_raises_on_empty w send enter ui h sp sy sc out :
  guard send enter ui = false ->
  filtered_frame df sp sy sc = [] ->
  exists out',
    process_user_message df w send enter ui h sp sy sc out =
    (Raised (PyError "ValueError" "NaTType does not support strftime"), out').
Proof.
  intros Hg He. unfold process_user_message.
  fold (guard send enter ui). rewrite Hg.
  destruct (filtered_df_of_returns sp sy sc out) as [o1 H1].
  rewrite (bind_returned _ _ _ _ _ H1).
  destruct (context_loop_blocks w data_queries "" o1) as [o2 H2].
  rewrite (bind_returned _ _ _ _ _ H2).
  destruct (get_database_schema_returns w o2) as [db_schema [o3 H3]].
  rewrite (bind_returned _ _ _ _ _ H3).
  rewrite He.
  rewrite (bind_raised _ _ _ _ _ (db_context_of_empty _ o3)).
  eexists. reflexivity.
Qed.

(** An empty product list selects no row, whatever the category. *)
Lemma filtered_frame_of_empty_list (sc : option string) :
  filtered_frame df (Some []) YearAll sc = [].
Proof.
  assert (Hnone : filter (fun r : row => isin [] (product_name r)) df = []).
  { induction df as [|r d IH]; [reflexivity | exact IH]. }
  unfold filtered_frame, filtered_df_of, try_except, bind, ret.
  rewrite Hnone. destruct sc as [c|]; [|reflexivity].
  destruct (String.eqb c "all"); reflexivity.
Qed.

(** One firing that passes the guard and whose selection leaves a row
    extends the stored messages by one turn. *)
Lemma submit_answered (s : submission) (history : option history_data)
    (out : stdout) :
  guard (send_clicks s) (enter_clicks s) (user_input s) = false ->
  filtered_frame df (selected_products s) (selected_year s) (selected_category s)
    <> [] ->
  exists reply out',
    submit df (history, out) s =
    (Some (mkHistory (Some (messages_of history ++ turn (input_text s) reply)%list)),
     out').
Proof.
  intros Hg Hne.
  destruct (process_user_message_returns (world s) _ _ _ history _ _ _ out Hg Hne)
    as [reply [out' H]].
  exists reply, out'. unfold submit, run_callback. simpl.
  rewrite H. reflexivity.
Qed.

Lemma turns_length subs replies :
  List.length replies = List.length subs ->
  List.length (turns subs replies) = (2 * List.length subs)%nat.
Proof.
  revert replies. induction subs as [|s subs IH]; intros [|r replies] Hlen;
    simpl in *; try discriminate; try reflexivity.
  unfold turns in *. simpl. rewrite IH by lia. lia.
Qed.

Lemma submit_all_answered (subs : list submission) :
  forall (history : option history_data) (out : stdout),
    Forall (fun s =>
              guard (send_clicks s) (enter_clicks s) (user_input s) = false /\
              filtered_frame df (selected_products s) (selected_year s)
                (selected_category s) <> []) subs ->
    exists replies,
      List.length replies = List.length subs /\
      messages_of (fst (submit_all df (history, out) subs)) =
      (messages_of history ++ turns subs replies)%list.
Proof.
  induction subs as [|s subs IH]; intros history out Hall.
  - exists []. split; [reflexivity|]. simpl. now rewrite app_nil_r.
  - inversion Hall as [|? ? [Hg Hne] Hrest]; subst.
    destruct (submit_answered s history out Hg Hne) as [reply [out' Hstep]].
    unfold submit_all. simpl fold_left. rewrite Hstep.
    destruct (IH (Some (mkHistory (Some (messages_of history ++ turn (input_text s) reply)%list)))
                 out' Hrest) as [replies [Hlen Hmsgs]].
    exists (reply :: replies). split; [simpl; now rewrite Hlen|].
    unfold submit_all in Hmsgs. rewrite Hmsgs. simpl messages_of.
    unfold turns. simpl. now rewrite <- !app_assoc.
Qed.

End ConversationFacts.

(** C2 (the claim as written fails): in a world where only the first
    catalog query fails, the document still holds that query's label, in
    front of the error record. *)
Lemma failed_query_block_is_present :
  Dashboard.read_sql_query Examples.w_query_fails
    "SELECT product_name, MAX(initial_count) as max_initial_count FROM Inventory"
    None = Raised (PyError "DatabaseError" "database is locked") /\
  exists (doc : string) (out' : stdout),
    Dashboard.context_loop Examples.w_query_fails Dashboard.data_queries "" [] =
    (Returned doc, out') /\
    Spec.has_label "max_initial_count" doc = true /\
    String.index 0 "database is locked" doc = Some 42%nat.
Proof.
  split; [reflexivity|].
  eexists. eexists. split; [vm_compute; reflexivity|].
  split; vm_compute; reflexivity.
Qed.

(** C7 (as the code has it): when the input is absent or the empty text
    the callback raises [PreventUpdate] at once: nothing is printed, no
    query or model call is made, and the stored history stays as it is. *)
Theorem empty_input_is_rejected :
  forall (df : Dashboard.DataFrame) (w : Dashboard.World)
         (send_clicks enter_clicks : option Z) (user_input : option string)
         (history : option Dashboard.history_data)
         (selected_products : option (list string))
         (selected_year : Dashboard.year_value)
         (selected_category : option string) (out : stdout),
    user_input = None \/ user_input = Some "" ->
    Dashboard.process_user_message df w send_clicks enter_clicks user_input
      history selected_products selected_year selected_category out =
    (Raised PreventUpdate, out) /\
    Dashboard.chat_history_after history
      (fst (Dashboard.process_user_message df w send_clicks enter_clicks
              user_input history selected_products selected_year
              selected_category out)) = history.
Proof.
  intros df w send enter ui h sp sy sc out Hui.
  assert (Hg : Spec.guard send enter ui = true)
    by (destruct Hui as [-> | ->]; reflexivity).
  rewrite (process_user_message_guarded df w send enter ui h sp sy sc out Hg).
  split; reflexivity.
Qed.

Lemma empty_input_is_rejected_witness :
  Dashboard.process_user_message Examples.df0 Examples.w_ok (Some 1) None
    (Some "") (Some Dashboard.initial_history) (Some ["Box Product"])
    Dashboard.YearAll (Some "all") [] = (Raised PreventUpdate, []).
Proof.
  apply (empty_input_is_rejected Examples.df0 Examples.w_ok (Some 1) None
           (Some "") (Some Dashboard.initial_history) (Some ["Box Product"])
           Dashboard.YearAll (Some "all") []).
  right. reflexivity.
Defined.

(** C7 (the claim as written fails): a single space is blank, yet the
    callback runs and the stored history gains two messages. *)
Lemma blank_input_is_processed :
  Dashboard.strip_truthy " " = false /\
  Dashboard.messages_of
    (Dashboard.chat_history_after (Some Dashboard.initial_history)
       (fst (Dashboard.process_user_message Examples.df0 Examples.w_ok
               (Some 1) None (Some " ") (Some Dashboard.initial_history)
               (Some ["Box Product"]) Dashboard.YearAll (Some "all") []))) =
  (Dashboard.messages_of (Some Dashboard.initial_history) ++
   [Dashboard.mkMessage "user" " ";
    Dashboard.mkMessage "ai" "Box Product has the highest initial count."])%list.
Proof. split; vm_compute; reflexivity. Qed.

(** C6: when the callback gets as far as the model call and that call
    raises, it still returns: the history is the stored messages, the
    user's message and one assistant message with the fixed fallback
    text (two more than before), and the failure and its traceback are
    printed after everything printed so far. *)
Theorem model_failure_appends_fallback :
  forall (df : Dashboard.DataFrame) (w : Dashboard.World)
         (send_clicks enter_clicks : option Z) (user_text : string)
         (history : option Dashboard.history_data)
         (selected_products : option (list string))
         (selected_year : Dashboard.year_value)
         (selected_category : option string)
         (out out1 : stdout) (prompt : string) (e : exn),
    Spec.guard send_clicks enter_clicks (Some user_text) = false ->
    Spec.prompt_stage df w user_text selected_products selected_year
      selected_category out = (Returned prompt, out1) ->
    Dashboard.generate_content w prompt = Raised e ->
    let history_messages :=
      (Dashboard.messages_of history ++
       [Dashboard.mkMessage "user" user_text;
        Dashboard.mkMessage "ai" Dashboard.fallback_response])%list in
    Dashboard.process_user_message df w send_clicks enter_clicks
      (Some user_text) history selected_products selected_year
      selected_category out =
    (Returned (map Dashboard.render_message history_messages,
               Dashboard.mkHistory (Some history_messages), "", ""),
     (out1 ++ [("Gemini API error: " ++ str e)%string;
               Dashboard.format_exc w e])%list) /\
    List.length history_messages =
    (List.length (Dashboard.messages_of history) + 2)%nat /\
    Dashboard.fallback_response =
    "I encountered an error processing your request. Please try a more specific question about your inventory data.".
Proof.
  intros df w send enter user_text h sp sy sc out out1 prompt e Hg Hstage Hmodel
         history_messages.
  split; [|split; [|reflexivity]].
  - unfold Dashboard.process_user_message.
    fold (Spec.guard send enter (Some user_text)). rewrite Hg.
    unfold Spec.prompt_stage in Hstage. unfold bind in *.
    destruct (Dashboard.filtered_df_of df sp sy sc out) as [[fd|e1] o1];
      [|discriminate].
    destruct (Dashboard.context_loop w Dashboard.data_queries "" o1)
      as [[ctx|e2] o2]; [|discriminate].
    destruct (Dashboard.get_database_schema w o2) as [[sch|e3] o3];
      [|discriminate].
    destruct (Dashboard.db_context_of (Dashboard.schema_info_of sch) fd o3)
      as [[dbc|e4] o4]; [|discriminate].
    unfold ret in Hstage. injection Hstage as <- <-.
    unfold try_except, call, print, ret. rewrite Hmodel.
    subst history_messages. now rewrite <- !app_assoc.
  - subst history_messages. rewrite length_app. reflexivity.
Qed.

Lemma model_failure_appends_fallback_witness :
  exists out',
    Dashboard.process_user_message Examples.df0 Examples.w_model_fails
      (Some 1) None (Some "Which product moved most?")
      (Some Dashboard.initial_history) (Some ["Box Product"])
      Dashboard.YearAll (Some "all") [] =
    (Returned
       ([Dashboard.AiMessage
           "Hello! I'm your AI analytics assistant. Ask me anything about your inventory data.";
         Dashboard.UserMessage "Which product moved most?";
         Dashboard.AiMessage Dashboard.fallback_response],
        Dashboard.mkHistory
          (Some [Dashboard.mkMessage "ai"
                   "Hello! I'm your AI analytics assistant. Ask me anything about your inventory data.";
                 Dashboard.mkMessage "user" "Which product moved most?";
                 Dashboard.mkMessage "ai" Dashboard.fallback_response]),
        "", ""), out').
Proof.
  eexists.
  refine (proj1 (model_failure_appends_fallback Examples.df0
                   Examples.w_model_fails (Some 1) None
                   "Which product moved most?" (Some Dashboard.initial_history)
                   (Some ["Box Product"]) Dashboard.YearAll (Some "all") []
                   _ _ (PyError "ResourceExhausted" "429 quota exceeded")
                   _ _ _)).
  - reflexivity.
  - vm_compute. reflexivity.
  - reflexivity.
Defined.

(** C3 (at the failing input): a submission with a text and a click, so
    one that passes the guard, and an empty product list.  Whatever the
    frame, the store, the model, the stored history and the category, the
    filters leave no row, the callback raises the [ValueError] of
    [NaT.strftime] once the context loop and the schema reader have run,
    and nothing catches it: the store keeps the history it had, with
    neither the user's message nor a reply added. *)
Theorem accepted_submission_on_empty_selection_adds_nothing :
  forall (df : Dashboard.DataFrame) (w : Dashboard.World)
         (history : option Dashboard.history_data) (out : stdout)
         (selected_category : option string),
    let s := Spec.mkSubmission w (Some 1) None (Some "hello") (Some [])
               Dashboard.YearAll selected_category in
    Spec.guard (Spec.send_clicks s) (Spec.enter_clicks s) (Spec.user_input s) =
    false /\
    Spec.filtered_frame df (Spec.selected_products s) (Spec.selected_year s)
      (Spec.selected_category s) = [] /\
    (exists out' : stdout,
       Spec.run_callback df s history out =
       (Raised (PyError "ValueError" "NaTType does not support strftime"), out')) /\
    fst (Spec.submit_all df (history, out) [s]) = history /\
    List.length (Dashboard.messages_of (fst (Spec.submit_all df (history, out) [s]))) =
    List.length (Dashboard.messages_of history).
Proof.
  intros df w history out sc s.
  assert (Hg : Spec.guard (Spec.send_clicks s) (Spec.enter_clicks s)
                 (Spec.user_input s) = false) by reflexivity.
  assert (He : Spec.filtered_frame df (Spec.selected_products s)
                 (Spec.selected_year s) (Spec.selected_category s) = [])
    by apply filtered_frame_of_empty_list.
  destruct (process_user_message_raises_on_empty df w _ _ _ history _ _ _ out Hg He)
    as [out' Hraise].
  assert (Hstore : fst (Spec.submit_all df (history, out) [s]) = history).
  { unfold Spec.submit_all, Spec.submit, Spec.run_callback. cbn [fold_left fst snd].
    subst s. cbn [Spec.world Spec.send_clicks Spec.enter_clicks Spec.user_input
                  Spec.selected_products Spec.selected_year Spec.selected_category]
      in *.
    rewrite Hraise. reflexivity. }
  split; [exact Hg|]. split; [exact He|].
  split; [exists out'; exact Hraise|].
  split; [exact Hstore | now rewrite Hstore].
Qed.

(** ** Grouping keys are totally ordered *)

#[export] Instance KeyLaws_Z : KeyLaws Z.
Proof.
  split; unfold kcmp, Key_Z.
  - intros a b. apply Z.compare_eq_iff.
  - intros a b. apply Z.compare_antisym.
  - intros a b c Hab Hbc.
    change (a < b) in Hab. change (b < c) in Hbc. change (a < c). lia.
Qed.

#[export] Instance KeyLaws_string : KeyLaws string.
Proof.
  split; unfold kcmp, Key_string.
  - intros a b. apply String_as_OT.cmp_eq.
  - intros a b. apply String_as_OT.cmp_antisym.
  - intros a b c Hab Hbc.
    apply String_as_OT.cmp_lt.
    apply String_as_OT.cmp_lt in Hab. apply String_as_OT.cmp_lt in Hbc.
    eapply String_as_OT.lt_trans; eassumption.
Qed.

Section PairKey.

Context {A B : Type} `{KeyLaws A} `{KeyLaws B}.

Lemma kcmp_pair (x y : A * B) :
  kcmp x y =
  match kcmp (fst x) (fst y) with
  | Eq => kcmp (snd x) (snd y)
  | c => c
  end.
Proof. reflexivity. Qed.

Lemma kcmp_refl_Eq {K : Type} `{KeyLaws K} (a : K) : kcmp a a = Eq.
Proof. now apply kcmp_eq. Qed.

#[export] Instance KeyLaws_pair : KeyLaws (A * B).
Proof.
  split.
  - intros [a1 b1] [a2 b2]. rewrite kcmp_pair. simpl.
    destruct (kcmp a1 a2) eqn:Ha.
    + apply kcmp_eq in Ha. subst a2. rewrite kcmp_eq.
      split; [now intros -> | now intros [= ->]].
    + split; [discriminate|]. intros [= -> ->].
      rewrite kcmp_refl_Eq in Ha. discriminate.
    + split; [discriminate|]. intros [= -> ->].
      rewrite kcmp_refl_Eq in Ha. discriminate.
  - intros [a1 b1] [a2 b2]. rewrite !kcmp_pair. simpl.
    rewrite (kcmp_antisym a1 a2).
    destruct (kcmp a2 a1); simpl; [apply kcmp_antisym | reflexivity | reflexivity].
  - intros [a1 b1] [a2 b2] [a3 b3]. rewrite !kcmp_pair. simpl.
    destruct (kcmp a1 a2) eqn:H12; try discriminate.
    + apply kcmp_eq in H12. subst a2.
      destruct (kcmp a1 a3) eqn:H13; try discriminate; [|reflexivity].
      apply kcmp_trans.
    + intros _.
      destruct (kcmp a2 a3) eqn:H23; try discriminate.
      * apply kcmp_eq in H23. subst a3. now rewrite H12.
      * intros _. now rewrite (kcmp_trans _ _ _ H12 H23).
Qed.

End PairKey.

Lemma kcmp_Timestamp (a b : Timestamp) :
  kcmp a b = kcmp (ts_key a) (ts_key b).
Proof. reflexivity. Qed.

#[export] Instance KeyLaws_Timestamp : KeyLaws Timestamp.
Proof.
  split.
  - intros a b. rewrite kcmp_Timestamp, kcmp_eq. split; [|now intros ->].
    destruct a, b. unfold ts_key. simpl. now intros [= -> -> ->].
  - intros a b. rewrite !kcmp_Timestamp. apply kcmp_antisym.
  - intros a b c. rewrite !kcmp_Timestamp. apply kcmp_trans.
Qed.

(** ** Facts about grouping *)
Section GroupFacts.

Context {K R : Type} `{KeyLaws K}.

Lemma kcmp_Gt_Lt (a b : K) : kcmp a b = Gt -> kcmp b a = Lt.
Proof.
  intros Hab. rewrite kcmp_antisym, Hab. reflexivity.
Qed.

Lemma filed_group_insert (k k' : K) (r : R) (gs : list (K * list R)) :
  filed k' (group_insert k r gs) =
  (filed k' gs + (if is_eq (kcmp k k') then 1 else 0))%nat.
Proof.
  induction gs as [|[k1 rs] tl IH]; simpl.
  - lia.
  - destruct (kcmp k k1) eqn:Hk; simpl.
    + apply kcmp_eq in Hk. subst k1.
      destruct (is_eq (kcmp k k')); [rewrite length_app; simpl|]; lia.
    + lia.
    + rewrite IH. lia.
Qed.

Lemma filed_fold (by_ : R -> K) (k : K) (d : list R) :
  forall gs,
    filed k (fold_left (fun gs r => group_insert (by_ r) r gs) d gs) =
    (filed k gs + rows_with by_ k d)%nat.
Proof.
  unfold rows_with.
  induction d as [|r d IH]; intros gs; simpl.
  - lia.
  - rewrite IH, filed_group_insert.
    destruct (is_eq (kcmp (by_ r) k)); simpl; lia.
Qed.

Lemma filed_groupby (by_ : R -> K) (k : K) (d : list R) :
  filed k (groupby by_ d) = rows_with by_ k d.
Proof. unfold groupby. now rewrite filed_fold. Qed.

Lemma in_group_insert_keys (k k' : K) (r : R) (gs : list (K * list R)) :
  In k' (map fst (group_insert k r gs)) -> k' = k \/ In k' (map fst gs).
Proof.
  induction gs as [|[k1 rs] tl IH]; simpl.
  - intros [<- | []]. now left.
  - destruct (kcmp k k1) eqn:Hk; simpl.
    + intros [<- | Hin]; right; [now left | now right].
    + intros [<- | [<- | Hin]]; [now left | right; now left | right; now right].
    + intros [<- | Hin]; [right; now left|].
      destruct (IH Hin) as [-> | Hin']; [now left | right; now right].
Qed.

Lemma group_insert_sorted (k : K) (r : R) (gs : list (K * list R)) :
  StronglySorted klt (map fst gs) ->
  StronglySorted klt (map fst (group_insert k r gs)).
Proof.
  induction gs as [|[k1 rs] tl IH]; simpl; intros Hs.
  - repeat constructor.
  - apply StronglySorted_inv in Hs. destruct Hs as [Htl Hall].
    destruct (kcmp k k1) eqn:Hk; simpl.
    + constructor; assumption.
    + constructor; [constructor; assumption|].
      constructor; [exact Hk|].
      eapply Forall_impl; [|exact Hall].
      intros a Ha. unfold klt in *. eapply kcmp_trans; eassumption.
    + constructor; [now apply IH|].
      apply Forall_forall. intros a Ha.
      destruct (in_group_insert_keys _ _ _ _ Ha) as [-> | Hin].
      * now apply kcmp_Gt_Lt.
      * rewrite Forall_forall in Hall. now apply Hall.
Qed.

Lemma groupby_sorted (by_ : R -> K) (d : list R) :
  StronglySorted klt (map fst (groupby by_ d)).
Proof.
  unfold groupby.
  assert (Hgen : forall gs, StronglySorted klt (map fst gs) ->
            StronglySorted klt
              (map fst (fold_left (fun gs r => group_insert (by_ r) r gs) d gs))).
  { induction d as [|r d IH]; intros gs Hs; simpl; [exact Hs|].
    apply IH. now apply group_insert_sorted. }
  apply Hgen. constructor.
Qed.

Lemma filed_above (k : K) (gs : list (K * list R)) :
  Forall (klt k) (map fst gs) -> filed k gs = 0%nat.
Proof.
  induction gs as [|[k1 rs] tl IH]; simpl; intros Hall; [reflexivity|].
  inversion Hall as [|? ? Hk Htl]; subst.
  rewrite (IH Htl). unfold klt in Hk.
  rewrite (kcmp_antisym k1 k), Hk. reflexivity.
Qed.

(** In a sorted group list a group holds all the rows filed under its
    key. *)
Lemma filed_of_group (k : K) (rs : list R) (gs : list (K * list R)) :
  StronglySorted klt (map fst gs) ->
  In (k, rs) gs -> filed k gs = List.length rs.
Proof.
  induction gs as [|[k1 rs1] tl IH]; simpl; intros Hs Hin; [contradiction|].
  apply StronglySorted_inv in Hs. destruct Hs as [Htl Hall].
  destruct Hin as [[= -> ->] | Hin].
  - rewrite kcmp_refl_Eq. simpl. rewrite (filed_above _ _ Hall). lia.
  - rewrite (IH Htl Hin).
    assert (Hlt : klt k1 k).
    { rewrite Forall_forall in Hall. apply Hall.
      apply in_map_iff. exists (k, rs). split; [reflexivity | exact Hin]. }
    unfold klt in Hlt. rewrite Hlt. reflexivity.
Qed.

Lemma group_insert_nonempty (k : K) (r : R) (gs : list (K * list R)) :
  Forall (fun g => snd g <> []) gs ->
  Forall (fun g => snd g <> []) (group_insert k r gs).
Proof.
  induction gs as [|[k1 rs] tl IH]; simpl; intros Hall.
  - constructor; [discriminate | constructor].
  - inversion Hall as [|? ? Hne Htl]; subst.
    destruct (kcmp k k1).
    + constructor; [|exact Htl]. simpl. destruct rs; discriminate.
    + constructor; [discriminate|]. constructor; assumption.
    + constructor; [exact Hne|]. now apply IH.
Qed.

Lemma groupby_nonempty (by_ : R -> K) (d : list R) :
  Forall (fun g => snd g <> []) (groupby by_ d).
Proof.
  unfold groupby.
  assert (Hgen : forall gs, Forall (fun g => snd g <> []) gs ->
            Forall (fun g => snd g <> [])
              (fold_left (fun gs r => group_insert (by_ r) r gs) d gs)).
  { induction d as [|r d IH]; intros gs Hs; simpl; [exact Hs|].
    apply IH. now apply group_insert_nonempty. }
  apply Hgen. constructor.
Qed.

(** A key with rows filed under it is a key of the list. *)
Lemma filed_positive_in (k : K) (gs : list (K * list R)) :
  (0 < filed k gs)%nat -> In k (map fst gs).
Proof.
  induction gs as [|[k1 rs] tl IH]; simpl; intros Hpos; [lia|].
  destruct (kcmp k1 k) eqn:Hk; simpl in Hpos.
  - left. now apply kcmp_eq.
  - right. apply IH. lia.
  - right. apply IH. lia.
Qed.

End GroupFacts.

(** ** Facts about sorting *)
Section SortFacts.

Context {A : Type}.
Variable key : A -> Z.

Lemma insert_by_perm (x : A) (l : list A) :
  Permutation (insert_by key x l) (x :: l).
Proof.
  induction l as [|y l IH]; simpl; [reflexivity|].
  destruct (key x <=? key y); [reflexivity|].
  rewrite IH. apply perm_swap.
Qed.

Lemma insert_after_perm (x : A) (l : list A) :
  Permutation (insert_after key x l) (x :: l).
Proof.
  induction l as [|y l IH]; simpl; [reflexivity|].
  destruct (key x <? key y); [reflexivity|].
  rewrite IH. apply perm_swap.
Qed.

Lemma insert_by_sorted (x : A) (s : list A) :
  StronglySorted (key_le key) s -> StronglySorted (key_le key) (insert_by key x s).
Proof.
  induction s as [|y tl IH]; simpl; intros Hs.
  - repeat constructor.
  - apply StronglySorted_inv in Hs. destruct Hs as [Htl Hall].
    destruct (key x <=? key y) eqn:Hle.
    + apply Z.leb_le in Hle.
      constructor; [constructor; assumption|].
      rewrite Forall_forall in *. intros z [<- | Hz]; [exact Hle|].
      specialize (Hall z Hz). unfold key_le in *. lia.
    + apply Z.leb_gt in Hle.
      constructor; [now apply IH|].
      rewrite Forall_forall in *. intros z Hz.
      apply (Permutation_in _ (insert_by_perm x tl)) in Hz.
      destruct Hz as [<- | Hz]; [unfold key_le; lia | now apply Hall].
Qed.

Lemma insert_after_sorted (x : A) (s : list A) :
  StronglySorted (key_le key) s -> StronglySorted (key_le key) (insert_after key x s).
Proof.
  induction s as [|y tl IH]; simpl; intros Hs.
  - repeat constructor.
  - apply StronglySorted_inv in Hs. destruct Hs as [Htl Hall].
    destruct (key x <? key y) eqn:Hlt.
    + apply Z.ltb_lt in Hlt.
      constructor; [constructor; assumption|].
      rewrite Forall_forall in *. intros z [<- | Hz]; [unfold key_le; lia|].
      specialize (Hall z Hz). unfold key_le in *. lia.
    + apply Z.ltb_ge in Hlt.
      constructor; [now apply IH|].
      rewrite Forall_forall in *. intros z Hz.
      apply (Permutation_in _ (insert_after_perm x tl)) in Hz.
      destruct Hz as [<- | Hz]; [exact Hlt | now apply Hall].
Qed.

End SortFacts.

(** Both insertion sorts meet the contract of the sorting routine. *)
Lemma insertion_sort_sorts : sorts_ascending insertion_sort.
Proof.
  intros A key l. unfold insertion_sort. split.
  - induction l as [|x l IH]; simpl; [reflexivity|].
    rewrite insert_by_perm. now constructor.
  - induction l as [|x l IH]; simpl; [constructor|].
    now apply (insert_by_sorted key).
Qed.

Lemma insertion_sort_after_sorts : sorts_ascending insertion_sort_after.
Proof.
  intros A key l. unfold insertion_sort_after. split.
  - induction l as [|x l IH]; simpl; [reflexivity|].
    rewrite insert_after_perm. now constructor.
  - induction l as [|x l IH]; simpl; [constructor|].
    now apply (insert_after_sorted key).
Qed.

Section OrderFacts.

Context {A : Type}.

Lemma StronglySorted_snoc (R : A -> A -> Prop) (l : list A) (x : A) :
  StronglySorted R l -> Forall (fun y => R y x) l ->
  StronglySorted R (l ++ [x]).
Proof.
  induction l as [|y l IH]; simpl; intros Hs Hall.
  - repeat constructor.
  - apply StronglySorted_inv in Hs. destruct Hs as [Hl Hy].
    inversion Hall as [|? ? Hyx Hlx]; subst.
    constructor; [now apply IH|].
    apply Forall_app. split; [exact Hy | now constructor].
Qed.

Lemma StronglySorted_rev (R : A -> A -> Prop) (l : list A) :
  StronglySorted R l -> StronglySorted (fun a b => R b a) (rev l).
Proof.
  induction l as [|x l IH]; simpl; intros Hs; [constructor|].
  apply StronglySorted_inv in Hs. destruct Hs as [Hl Hx].
  apply StronglySorted_snoc; [now apply IH|].
  apply Forall_rev. exact Hx.
Qed.

Lemma StronglySorted_firstn (R : A -> A -> Prop) (n : nat) (l : list A) :
  StronglySorted R l -> StronglySorted R (firstn n l).
Proof.
  revert l. induction n as [|n IH]; intros [|x l] Hs; simpl; try constructor.
  - apply IH. now apply StronglySorted_inv in Hs.
  - apply StronglySorted_inv in Hs. destruct Hs as [_ Hx].
    rewrite Forall_forall in *. intros z Hz. apply Hx.
    rewrite <- (firstn_skipn n l). apply in_or_app. now left.
Qed.

Lemma StronglySorted_weaken (R S : A -> A -> Prop) (l : list A) :
  (forall a b, R a b -> S a b) -> StronglySorted R l -> StronglySorted S l.
Proof.
  intros HRS. induction 1 as [|x l Hl IH Hx]; constructor; [exact IH|].
  eapply Forall_impl; [|exact Hx]. intros b. apply HRS.
Qed.

Lemma StronglySorted_map_inv {B : Type} (f : A -> B) (R : B -> B -> Prop)
    (l : list A) :
  StronglySorted R (map f l) -> StronglySorted (fun a b => R (f a) (f b)) l.
Proof.
  induction l as [|x l IH]; simpl; intros Hs; [constructor|].
  apply StronglySorted_inv in Hs. destruct Hs as [Hl Hx].
  constructor; [now apply IH|].
  rewrite Forall_forall in *. intros z Hz. apply Hx. now apply in_map.
Qed.

Lemma in_firstn (n : nat) (l : list A) (x : A) : In x (firstn n l) -> In x l.
Proof.
  intros Hx. rewrite <- (firstn_skipn n l). apply in_or_app. now left.
Qed.

End OrderFacts.

(** pandas' descending sort, whatever routine meets the contract: the
    same rows, no row before a row with a larger key. *)
Lemma sort_values_desc_perm (quicksort : Argsort) {A : Type} (key : A -> Z)
    (l : list A) :
  sorts_ascending quicksort ->
  Permutation (sort_values_desc quicksort key l) l.
Proof.
  intros Hq. unfold sort_values_desc.
  rewrite <- Permutation_rev. rewrite (proj1 (Hq A key (rev l))).
  symmetry. apply Permutation_rev.
Qed.

Lemma sort_values_desc_sorted (quicksort : Argsort) {A : Type} (key : A -> Z)
    (l : list A) :
  sorts_ascending quicksort ->
  StronglySorted (fun a b => key b <= key a) (sort_values_desc quicksort key l).
Proof.
  intros Hq. unfold sort_values_desc.
  apply (StronglySorted_rev (fun a b => key a <= key b)).
  exact (proj2 (Hq A key (rev l))).
Qed.

(** In a sorted list every row of a front part stands in the order to
    every row of the rest. *)
Lemma StronglySorted_app_inv {A : Type} (R : A -> A -> Prop) (l1 l2 : list A) :
  StronglySorted R (l1 ++ l2) ->
  forall a b, In a l1 -> In b l2 -> R a b.
Proof.
  induction l1 as [|x l1 IH]; simpl; intros Hs a b Ha Hb; [contradiction|].
  apply StronglySorted_inv in Hs. destruct Hs as [Hrest Hx].
  destruct Ha as [<- | Ha].
  - rewrite Forall_forall in Hx. apply Hx. apply in_or_app. now right.
  - now apply IH.
Qed.

(** ** The busiest-day summary *)
Section BusyFacts.
Import Dashboard Spec.

Lemma busy_days_keys (d : DataFrame) :
  map busy_key (busy_days d) = map fst (groupby date_product d).
Proof.
  unfold busy_days. rewrite map_map. apply map_ext.
  intros [[t p] rs]. reflexivity.
Qed.

Lemma klt_irrefl {K : Type} `{KeyLaws K} (a : K) : ~ klt a a.
Proof. unfold klt. rewrite kcmp_refl_Eq. discriminate. Qed.

Lemma sorted_keys_NoDup {K : Type} `{KeyLaws K} (l : list K) :
  StronglySorted klt l -> NoDup l.
Proof.
  induction 1 as [|x l Hl IH Hx]; constructor; [|exact IH].
  intros Hin. rewrite Forall_forall in Hx.
  exact (klt_irrefl x (Hx x Hin)).
Qed.

Lemma rows_with_positive (k : Timestamp * string) (d : DataFrame) :
  (0 < rows_with date_product k d)%nat <->
  exists r, In r d /\ date_product r = k.
Proof.
  unfold rows_with. split.
  - destruct (filter (fun r => is_eq (kcmp (date_product r) k)) d) as [|r l] eqn:Hf;
      simpl; [lia|]. intros _.
    assert (Hin : In r (filter (fun r => is_eq (kcmp (date_product r) k)) d))
      by (rewrite Hf; now left).
    apply filter_In in Hin. destruct Hin as [Hin Heq].
    exists r. split; [exact Hin|].
    apply kcmp_eq. destruct (kcmp (date_product r) k); [reflexivity | discriminate..].
  - intros [r [Hin Heq]].
    assert (Hf : In r (filter (fun r => is_eq (kcmp (date_product r) k)) d)).
    { apply filter_In. split; [exact Hin|]. rewrite Heq, kcmp_refl_Eq. reflexivity. }
    destruct (filter (fun r => is_eq (kcmp (date_product r) k)) d);
      [contradiction | simpl; lia].
Qed.

(** A row of [busy_days] counts the frame rows on its pair, at least
    one. *)
Lemma busy_days_count (d : DataFrame) (b : busy_row) :
  In b (busy_days d) ->
  transaction_count b = Z.of_nat (rows_on (busy_key b) d) /\
  1 <= transaction_count b.
Proof.
  unfold busy_days. intros Hin. apply in_map_iff in Hin.
  destruct Hin as [[[t p] rs] [<- Hg]]. simpl.
  pose proof (filed_of_group (t, p) rs _ (groupby_sorted date_product d) Hg) as Hfiled.
  rewrite filed_groupby in Hfiled.
  pose proof (groupby_nonempty date_product d) as Hne.
  rewrite Forall_forall in Hne. specialize (Hne _ Hg). simpl in Hne.
  split.
  - unfold busy_key. simpl. f_equal. symmetry. exact Hfiled.
  - destruct rs; [contradiction | simpl; lia].
Qed.

Lemma busy_days_pairs (d : DataFrame) (k : Timestamp * string) :
  In k (map busy_key (busy_days d)) <->
  exists r, In r d /\ (date r, product_name r) = k.
Proof.
  rewrite <- (rows_with_positive k d), busy_days_keys. split.
  - intros Hin. apply in_map_iff in Hin. destruct Hin as [[k' rs] [Hk Hg]].
    simpl in Hk. subst k'.
    rewrite <- filed_groupby.
    rewrite (filed_of_group k rs _ (groupby_sorted date_product d) Hg).
    pose proof (groupby_nonempty date_product d) as Hne.
    rewrite Forall_forall in Hne. specialize (Hne _ Hg). simpl in Hne.
    destruct rs; [contradiction | simpl; lia].
  - intros Hpos. apply filed_positive_in. now rewrite filed_groupby.
Qed.

Lemma busy_days_sorted (d : DataFrame) :
  StronglySorted (fun a b => kcmp (busy_key a) (busy_key b) = Lt) (busy_days d).
Proof.
  apply (StronglySorted_map_inv busy_key klt).
  rewrite busy_days_keys. apply groupby_sorted.
Qed.

End BusyFacts.

(** C8 (as the code has it): whatever routine sorts the count column,
    as long as it returns the same rows in ascending key order, the chart
    is the first ten rows, or all of them when there are fewer, of the
    (date, product) groups arranged by descending transaction count: no
    group left out has more transactions than a row of the chart.  There
    is one group per pair that has a row and its count is the number of
    its rows (at least one).  The order of rows with equal counts is the
    routine's. *)
Theorem busiest_days_sorted_by_count :
  forall quicksort : Argsort,
    sorts_ascending quicksort ->
    forall filtered_df : Dashboard.DataFrame,
      let groups := Dashboard.busy_days filtered_df in
      let top_days := Dashboard.create_busy_days_chart quicksort filtered_df in
      List.length top_days = Nat.min 10 (List.length groups) /\
      (NoDup (map Dashboard.busy_key groups) /\
       forall k : Timestamp * string,
         In k (map Dashboard.busy_key groups) <->
         exists r, In r filtered_df /\
                   (Dashboard.date r, Dashboard.product_name r) = k) /\
      (forall b : Dashboard.busy_row,
         In b top_days ->
         In b groups /\
         Dashboard.transaction_count b =
         Z.of_nat (Spec.rows_on (Dashboard.busy_key b) filtered_df) /\
         1 <= Dashboard.transaction_count b) /\
      StronglySorted Spec.by_count_desc top_days /\
      (exists arranged : list Dashboard.busy_row,
         Permutation arranged groups /\
         StronglySorted Spec.by_count_desc arranged /\
         top_days = firstn 10 arranged) /\
      (forall a b : Dashboard.busy_row,
         In a top_days -> In b groups -> ~ In b top_days ->
         Dashboard.transaction_count b <= Dashboard.transaction_count a).
Proof.
  intros quicksort Hq d groups top_days. subst groups top_days.
  unfold Dashboard.create_busy_days_chart, head.
  pose proof (sort_values_desc_perm quicksort Dashboard.transaction_count
                (Dashboard.busy_days d) Hq) as Hperm.
  pose proof (sort_values_desc_sorted quicksort Dashboard.transaction_count
                (Dashboard.busy_days d) Hq) as Hsorted.
  set (arranged := sort_values_desc quicksort Dashboard.transaction_count
                     (Dashboard.busy_days d)) in *.
  split; [|split; [split|split; [|split; [|split]]]].
  - rewrite length_firstn. now rewrite (Permutation_length Hperm).
  - rewrite busy_days_keys. apply sorted_keys_NoDup, groupby_sorted.
  - apply busy_days_pairs.
  - intros b Hb. apply in_firstn in Hb.
    apply (Permutation_in _ Hperm) in Hb.
    split; [exact Hb | now apply busy_days_count].
  - apply StronglySorted_firstn. exact Hsorted.
  - exists arranged. repeat split; assumption.
  - intros a b Ha Hb Hnot.
    apply (Permutation_in _ (Permutation_sym Hperm)) in Hb.
    rewrite <- (firstn_skipn 10 arranged) in Hb, Hsorted.
    apply in_app_or in Hb. destruct Hb as [Hb | Hb]; [contradiction|].
    exact (StronglySorted_app_inv _ _ _ Hsorted a b Ha Hb).
Qed.

Lemma busiest_days_sorted_by_count_witness :
  Dashboard.create_busy_days_chart insertion_sort
    [Dashboard.mkRow 1 "Box Product" (mkTimestamp 2023 5 1) 310 305 "Type B" 120;
     Dashboard.mkRow 2 "Box Product" (mkTimestamp 2023 5 2) 305 312 "Type B" 120;
     Dashboard.mkRow 3 "Box Product" (mkTimestamp 2023 5 2) 312 300 "Type B" 120] =
  [Dashboard.mkBusy (mkTimestamp 2023 5 2) "Box Product" 2;
   Dashboard.mkBusy (mkTimestamp 2023 5 1) "Box Product" 1] /\
  StronglySorted Spec.by_count_desc
    (Dashboard.create_busy_days_chart insertion_sort
       [Dashboard.mkRow 1 "Box Product" (mkTimestamp 2023 5 1) 310 305 "Type B" 120;
        Dashboard.mkRow 2 "Box Product" (mkTimestamp 2023 5 2) 305 312 "Type B" 120;
        Dashboard.mkRow 3 "Box Product" (mkTimestamp 2023 5 2) 312 300 "Type B" 120]).
Proof.
  split; [reflexivity|].
  exact (proj1 (proj2 (proj2 (proj2
    (busiest_days_sorted_by_count insertion_sort insertion_sort_sorts
       [Dashboard.mkRow 1 "Box Product" (mkTimestamp 2023 5 1) 310 305 "Type B" 120;
        Dashboard.mkRow 2 "Box Product" (mkTimestamp 2023 5 2) 305 312 "Type B" 120;
        Dashboard.mkRow 3 "Box Product" (mkTimestamp 2023 5 2) 312 300 "Type B" 120]))))).
Defined.

(** C8 (the claim as written fails): the code sorts on the count alone,
    so the order of equal counts does not follow from it.  With a routine
    that meets the contract of the sort, two days with one transaction
    each come out with the earlier day first: equal counts are not in
    descending date order. *)
Lemma busiest_days_ties_not_by_latest_date :
  ~ (forall quicksort : Argsort,
       sorts_ascending quicksort ->
       forall filtered_df : Dashboard.DataFrame,
         StronglySorted Spec.count_then_latest_date
           (Dashboard.create_busy_days_chart quicksort filtered_df)).
Proof.
  intros Hclaim.
  specialize (Hclaim insertion_sort insertion_sort_sorts
    [Dashboard.mkRow 1 "Box Product" (mkTimestamp 2023 5 1) 310 305 "Type B" 120;
     Dashboard.mkRow 2 "Box Product" (mkTimestamp 2023 5 2) 305 312 "Type B" 120]).
  assert (E : Dashboard.create_busy_days_chart insertion_sort
    [Dashboard.mkRow 1 "Box Product" (mkTimestamp 2023 5 1) 310 305 "Type B" 120;
     Dashboard.mkRow 2 "Box Product" (mkTimestamp 2023 5 2) 305 312 "Type B" 120] =
    [Dashboard.mkBusy (mkTimestamp 2023 5 1) "Box Product" 1;
     Dashboard.mkBusy (mkTimestamp 2023 5 2) "Box Product" 1]) by reflexivity.
  rewrite E in Hclaim.
  apply StronglySorted_inv in Hclaim. destruct Hclaim as [_ Hall].
  inversion Hall as [|? ? Hfirst _]; subst.
  destruct Hfirst as [Hlt | [_ Hdate]].
  - simpl in Hlt. lia.
  - apply Hdate. reflexivity.
Qed.

(** Two routines that both meet the contract of the sort order the two
    days differently: the code leaves the order of equal counts to the
    sorting routine. *)
Lemma tie_order_is_the_routines :
  sorts_ascending insertion_sort /\ sorts_ascending insertion_sort_after /\
  Dashboard.create_busy_days_chart insertion_sort
    [Dashboard.mkRow 1 "Box Product" (mkTimestamp 2023 5 1) 310 305 "Type B" 120;
     Dashboard.mkRow 2 "Box Product" (mkTimestamp 2023 5 2) 305 312 "Type B" 120] =
  [Dashboard.mkBusy (mkTimestamp 2023 5 1) "Box Product" 1;
   Dashboard.mkBusy (mkTimestamp 2023 5 2) "Box Product" 1] /\
  Dashboard.create_busy_days_chart insertion_sort_after
    [Dashboard.mkRow 1 "Box Product" (mkTimestamp 2023 5 1) 310 305 "Type B" 120;
     Dashboard.mkRow 2 "Box Product" (mkTimestamp 2023 5 2) 305 312 "Type B" 120] =
  [Dashboard.mkBusy (mkTimestamp 2023 5 2) "Box Product" 1;
   Dashboard.mkBusy (mkTimestamp 2023 5 1) "Box Product" 1].
Proof.
  split; [exact insertion_sort_sorts|].
  split; [exact insertion_sort_after_sorts|].
  split; reflexivity.
Qed.

(* ================================================================== *)
(** * Part III: further properties of the code *)
(* ================================================================== *)

(** ** Percentages *)
Section PercentFacts.
Import Dashboard Notions.

Lemma qsign_inject_Z (p : Z) : qsign (inject_Z p) = (p ?= 0).
Proof. reflexivity. Qed.

(** A percentage against a non-zero integer base is a finite number. *)
Lemma percent_of_nonzero_base (d : nat) (c p : Z) :
  p <> 0 ->
  exists q : Q,
    round d (fmul (fdiv (fsub (of_int c) (of_int p)) (of_int p)) (of_int 100)) =
    Fin q.
Proof.
  intros Hp. unfold of_int, fsub, fdiv. rewrite qsign_inject_Z.
  destruct (Z.compare_spec p 0) as [H0 | Hlt | Hgt]; [contradiction | |];
    simpl; eexists; reflexivity.
Qed.

End PercentFacts.

(** X1: [inventory_change] never shows an infinity or a NaN: it is 0
    when the previous day's total is 0 and a finite number otherwise. *)
Theorem inventory_change_is_finite :
  forall current_inventory_sum previous_inventory_sum : Z,
    is_finite
      (Dashboard.inventory_change current_inventory_sum previous_inventory_sum)
    = true /\
    (previous_inventory_sum = 0 ->
     Dashboard.inventory_change current_inventory_sum previous_inventory_sum =
     Fin 0).
Proof.
  intros c p. unfold Dashboard.inventory_change. split.
  - destruct (p =? 0) eqn:Hp; cbn [negb]; [reflexivity|].
    apply Z.eqb_neq in Hp.
    destruct (percent_of_nonzero_base 2 c p Hp) as [q ->]. reflexivity.
  - intros ->. reflexivity.
Qed.

(** ** Grouping loses no row *)
(** ** int64 arithmetic *)
Section Int64Facts.
Import Float.

Lemma wrap_int64_mod (z : Z) : wrap_int64 z mod 2 ^ 64 = z mod 2 ^ 64.
Proof.
  unfold wrap_int64. rewrite Zminus_mod_idemp_l. f_equal. lia.
Qed.

Lemma wrap_int64_eq (a b : Z) :
  a mod 2 ^ 64 = b mod 2 ^ 64 -> wrap_int64 a = wrap_int64 b.
Proof.
  intros Hab. unfold wrap_int64. f_equal.
  rewrite (Zplus_mod a), (Zplus_mod b), Hab. reflexivity.
Qed.

Lemma wrap_int64_small (z : Z) :
  - 2 ^ 63 <= z < 2 ^ 63 -> wrap_int64 z = z.
Proof.
  intros Hz. unfold wrap_int64. rewrite Z.mod_small; lia.
Qed.

Lemma wrap_int64_range (z : Z) : - 2 ^ 63 <= wrap_int64 z < 2 ^ 63.
Proof.
  unfold wrap_int64.
  pose proof (Z.mod_pos_bound (z + 2 ^ 63) (2 ^ 64) ltac:(lia)). lia.
Qed.

Lemma sum_int_cons (x : Z) (l : list Z) : sum_int (x :: l) = x + sum_int l.
Proof. reflexivity. Qed.

(** Wrapping the terms of a sum does not change the wrapped sum. *)
Lemma sum_int_wrapped {A : Type} (f : A -> Z) (l : list A) :
  sum_int (map (fun x => wrap_int64 (f x)) l) mod 2 ^ 64 =
  sum_int (map f l) mod 2 ^ 64.
Proof.
  induction l as [|x l IH]; [reflexivity|].
  rewrite !map_cons, !sum_int_cons.
  rewrite Zplus_mod, IH, wrap_int64_mod, <- Zplus_mod. reflexivity.
Qed.

Lemma sum_int_abs {A : Type} (f : A -> Z) (l : list A) :
  Z.abs (sum_int (map f l)) <= sum_int (map (fun x => Z.abs (f x)) l).
Proof.
  induction l as [|x l IH]; [simpl; lia|].
  rewrite !map_cons, !sum_int_cons. lia.
Qed.

Lemma sum_int_nonneg {A : Type} (f : A -> Z) (l : list A) :
  (forall x, 0 <= f x) -> 0 <= sum_int (map f l).
Proof.
  intros Hf. induction l as [|x l IH]; [simpl; lia|].
  rewrite map_cons, sum_int_cons. specialize (Hf x). lia.
Qed.

(** A sum of n terms below a bound is below n times the bound. *)
Lemma sum_int_bound {A : Type} (f : A -> Z) (l : list A) (b : Z) :
  Forall (fun x => 0 <= f x < b) l ->
  0 <= sum_int (map f l) <= Z.of_nat (List.length l) * b.
Proof.
  induction 1 as [|x l Hx _ IH]; [simpl; lia|].
  rewrite map_cons, sum_int_cons. simpl List.length.
  rewrite Nat2Z.inj_succ. nia.
Qed.

Lemma map_ext_in_sum {A : Type} (f g : A -> Z) (l : list A) :
  (forall x, In x l -> f x = g x) ->
  sum_int (map f l) = sum_int (map g l).
Proof.
  intros Hfg. f_equal. now apply map_ext_in.
Qed.

End Int64Facts.

Section GroupSumFacts.
Import Dashboard Notions.

Context {K R : Type} `{Key K}.

Lemma sum_int_app (l1 l2 : list Z) :
  sum_int (l1 ++ l2) = sum_int l1 + sum_int l2.
Proof.
  induction l1 as [|x l1 IH]; simpl; [reflexivity | rewrite IH; lia].
Qed.

Lemma group_sum_insert (f : R -> Z) (k : K) (r : R) (gs : list (K * list R)) :
  group_sum f (group_insert k r gs) = group_sum f gs + f r.
Proof.
  unfold group_sum.
  induction gs as [|[k1 rs] tl IH]; simpl.
  - lia.
  - destruct (kcmp k k1); simpl.
    + rewrite map_app, sum_int_app. simpl. lia.
    + lia.
    + rewrite IH. lia.
Qed.

Lemma group_sum_groupby (f : R -> Z) (by_ : R -> K) (d : list R) :
  group_sum f (groupby by_ d) = sum_int (map f d).
Proof.
  unfold groupby.
  assert (Hgen : forall gs,
            group_sum f (fold_left (fun gs r => group_insert (by_ r) r gs) d gs) =
            group_sum f gs + sum_int (map f d)).
  { induction d as [|r d IH]; intros gs; simpl; [lia|].
    rewrite IH, group_sum_insert. lia. }
  rewrite Hgen. reflexivity.
Qed.

(** A group's part of a sum of non-negative terms is at most the whole
    sum. *)
Lemma group_sum_part (f : R -> Z) (gs : list (K * list R)) (g : K * list R) :
  (forall r, 0 <= f r) -> In g gs ->
  sum_int (map f (snd g)) <= group_sum f gs.
Proof.
  intros Hf. unfold group_sum.
  induction gs as [|h gs IH]; simpl; [contradiction|].
  intros [-> | Hin].
  - pose proof (sum_int_nonneg (fun g => sum_int (map f (snd g))) gs
                  (fun g => sum_int_nonneg f (snd g) Hf)). lia.
  - specialize (IH Hin).
    pose proof (sum_int_nonneg f (snd h) Hf). lia.
Qed.

End GroupSumFacts.

Section GroupKeyFacts.
Import Dashboard Notions.

Context {K R : Type} `{KeyLaws K}.

(** The keys of [groupby] are the keys that occur in the frame. *)
Lemma groupby_keys (by_ : R -> K) (d : list R) (k : K) :
  In k (map fst (groupby by_ d)) <-> exists r, In r d /\ by_ r = k.
Proof.
  split.
  - intros Hin. apply in_map_iff in Hin. destruct Hin as [[k' rs] [Hk Hg]].
    simpl in Hk. subst k'.
    pose proof (filed_of_group k rs _ (groupby_sorted by_ d) Hg) as Hfiled.
    rewrite filed_groupby in Hfiled.
    pose proof (groupby_nonempty by_ d) as Hne.
    rewrite Forall_forall in Hne. specialize (Hne _ Hg). simpl in Hne.
    unfold rows_with in Hfiled.
    destruct (filter (fun r => is_eq (kcmp (by_ r) k)) d) as [|r l] eqn:Hf.
    + destruct rs; [contradiction | discriminate].
    + assert (Hr : In r (filter (fun r => is_eq (kcmp (by_ r) k)) d))
        by (rewrite Hf; now left).
      apply filter_In in Hr. destruct Hr as [Hr Heq].
      exists r. split; [exact Hr|]. apply kcmp_eq.
      destruct (kcmp (by_ r) k); [reflexivity | discriminate..].
  - intros [r [Hr Heq]]. apply filed_positive_in. rewrite filed_groupby.
    unfold rows_with.
    assert (Hf : In r (filter (fun r => is_eq (kcmp (by_ r) k)) d)).
    { apply filter_In. split; [exact Hr|]. rewrite Heq, kcmp_refl_Eq. reflexivity. }
    destruct (filter (fun r => is_eq (kcmp (by_ r) k)) d);
      [contradiction | simpl; lia].
Qed.

End GroupKeyFacts.

(** X2: the product distribution has one row per product that occurs in
    the frame, in ascending name order.  Its totals are int64 sums, and
    in int64 arithmetic they add up to the total variance of the frame;
    when the absolute variances of the frame add up to less than 2^63
    no sum wraps and the totals add up to the total variance exactly. *)
Theorem product_distribution_conserves_variance :
  forall filtered_df : Dashboard.DataFrame,
    let chart := Dashboard.create_product_distribution_chart filtered_df in
    sum_int64 (map snd chart) =
    sum_int64 (map Dashboard.variance filtered_df) /\
    (sum_int (map (fun r => Z.abs (Dashboard.variance r)) filtered_df) < 2 ^ 63 ->
     sum_int (map snd chart) =
     sum_int (map Dashboard.variance filtered_df)) /\
    StronglySorted (fun a b => String.compare a b = Lt) (map fst chart) /\
    (forall p : string,
       In p (map fst chart) <->
       exists r, In r filtered_df /\ Dashboard.product_name r = p).
Proof.
  intros d chart. subst chart.
  unfold Dashboard.create_product_distribution_chart, Dashboard.column.
  rewrite !map_map. simpl.
  split; [|split; [|split]].
  - unfold sum_int64 at 1 3. apply wrap_int64_eq.
    unfold sum_int64.
    rewrite (sum_int_wrapped
               (fun g : string * Dashboard.DataFrame =>
                  sum_int (map Dashboard.variance (snd g)))).
    f_equal.
    exact (group_sum_groupby Dashboard.variance Dashboard.product_name d).
  - intros Hsmall. change (Z.pow_pos 2 63) with (2 ^ 63) in Hsmall.
    rewrite <- (group_sum_groupby Dashboard.variance Dashboard.product_name d).
    unfold Notions.group_sum. apply map_ext_in_sum.
    intros g Hg. unfold sum_int64. apply wrap_int64_small.
    pose proof (sum_int_abs Dashboard.variance (snd g)) as Habs.
    pose proof (group_sum_part (fun r => Z.abs (Dashboard.variance r))
                  (groupby Dashboard.product_name d) g
                  (fun r => Z.abs_nonneg _) Hg) as Hpart.
    rewrite group_sum_groupby in Hpart.
    unfold Dashboard.DataFrame in *. lia.
  - exact (groupby_sorted Dashboard.product_name d).
  - intros p. apply groupby_keys.
Qed.

(** X3: the transaction counts of [busy_days] add up to the number of
    rows of the frame: every row is counted on exactly one (date,
    product) pair. *)
Theorem busy_days_counts_every_row :
  forall filtered_df : Dashboard.DataFrame,
    sum_int (map Dashboard.transaction_count (Dashboard.busy_days filtered_df)) =
    Z.of_nat (List.length filtered_df).
Proof.
  intros d. unfold Dashboard.busy_days. rewrite map_map. simpl.
  assert (Hone : forall rs : list Dashboard.row,
            Z.of_nat (List.length rs) = sum_int (map (fun _ => 1) rs)).
  { induction rs as [|r rs IH]; [reflexivity|].
    cbn [List.length map]. rewrite Nat2Z.inj_succ, IH.
    change (sum_int (1 :: map (fun _ : Dashboard.row => 1) rs))
      with (1 + sum_int (map (fun _ : Dashboard.row => 1) rs)).
    lia. }
  rewrite (map_ext _ (fun g => sum_int (map (fun _ => 1) (snd g))))
    by (intros g; apply Hone).
  rewrite Hone.
  exact (group_sum_groupby (fun _ => 1)
           (fun r => (Dashboard.date r, Dashboard.product_name r)) d).
Qed.

(** ** The growth chart *)
Section GrowthChartFacts.
Import Dashboard Notions.

Lemma growth_table_rows (d : DataFrame) :
  growth_table d =
  dropna (map growth_row_of
              (combine (monthly_data d)
                       (shift1 (map (fun m => of_int (snd m)) (monthly_data d))))).
Proof. reflexivity. Qed.

Lemma monthly_data_totals (d : DataFrame) :
  map snd (monthly_data d) = monthly_totals d.
Proof.
  unfold monthly_data, monthly_totals. rewrite map_map. reflexivity.
Qed.

Lemma combine_firstn_length {A B : Type} (l : list A) (l' : list B) :
  combine l (firstn (List.length l) l') = combine l l'.
Proof.
  revert l'. induction l as [|x l IH]; intros [|y l']; simpl;
    try reflexivity.
  now rewrite IH.
Qed.

(** The first month is paired with no previous total, every later month
    with the total of the month before it. *)
Lemma combine_with_shift (md : list (Timestamp * Z)) :
  combine md (shift1 (map (fun m => of_int (snd m)) md)) =
  match md with
  | [] => []
  | m :: ms => (m, NaN) :: combine ms (map (fun m => of_int (snd m)) (m :: ms))
  end.
Proof.
  destruct md as [|m ms]; [reflexivity|].
  unfold shift1. cbn [map List.length firstn combine]. f_equal.
  rewrite length_map. apply combine_firstn_length.
Qed.

(** The row of the first month has no previous total and is dropped. *)
Lemma dropna_first_month (m : Timestamp * Z) (rest : list ((Timestamp * Z) * fval)) :
  dropna (map growth_row_of ((m, NaN) :: rest)) = dropna (map growth_row_of rest).
Proof. reflexivity. Qed.

Lemma growth_rows_bound (md : list (Timestamp * Z)) :
  (List.length
     (dropna (map growth_row_of
                  (combine md (shift1 (map (fun m => of_int (snd m)) md)))))
   <= List.length md - 1)%nat.
Proof.
  rewrite combine_with_shift. destruct md as [|m ms]; [simpl; lia|].
  cbn [map]. unfold dropna at 1. cbn [filter growth_row_of previous snd is_nan orb negb].
  fold (dropna (map growth_row_of
                    (combine ms (map (fun m => of_int (snd m)) (m :: ms))))).
  unfold dropna. etransitivity; [apply filter_length_le|].
  rewrite length_map, length_combine. simpl List.length. lia.
Qed.

Lemma growth_rows_nonzero (ms : list (Timestamp * Z)) :
  forall m : Timestamp * Z,
    Forall (fun x => snd x <> 0) (m :: ms) ->
    let rows :=
      map growth_row_of (combine ms (map (fun m => of_int (snd m)) (m :: ms))) in
    dropna rows = rows /\
    Forall (fun r => is_finite (pct_change r) = true) rows.
Proof.
  induction ms as [|m' ms IH]; intros m Hall; [split; [reflexivity | constructor]|].
  inversion Hall as [|? ? Hm Hrest]; subst.
  destruct (IH m' Hrest) as [Hdrop Hfin].
  cbn [map combine] in *.
  destruct (percent_of_nonzero_base 1 (snd m') (snd m) Hm) as [q Hq].
  assert (Hrow : growth_row_of (m', of_int (snd m)) =
                 mkGrowth (fst m') (snd m') (of_int (snd m)) (Fin q)).
  { unfold growth_row_of. cbn [fst snd]. now rewrite Hq. }
  rewrite Hrow. split.
  - unfold dropna in *. cbn [filter previous pct_change is_nan of_int orb negb].
    now rewrite Hdrop.
  - constructor; [reflexivity | exact Hfin].
Qed.

End GrowthChartFacts.

(** X4: the growth chart drops the first month: a frame with rows in n
    months gives at most n - 1 bars (none for an empty frame or a single
    month). *)
Theorem growth_chart_drops_first_month :
  forall filtered_df : Dashboard.DataFrame,
    (List.length (Dashboard.create_growth_chart filtered_df)
     <= List.length (Notions.monthly_totals filtered_df) - 1)%nat.
Proof.
  intros d. unfold Dashboard.create_growth_chart.
  rewrite length_map, growth_table_rows.
  rewrite <- monthly_data_totals, length_map.
  apply growth_rows_bound.
Qed.

(** X5: when no month of the frame has a total initial count of 0 (the
    total as the code computes it, an int64 sum), the growth chart has
    exactly one bar per month after the first, and every bar is a finite
    number. *)
Theorem growth_chart_finite_when_totals_nonzero :
  forall filtered_df : Dashboard.DataFrame,
    Forall (fun total => total <> 0) (Notions.monthly_totals filtered_df) ->
    List.length (Dashboard.create_growth_chart filtered_df) =
    (List.length (Notions.monthly_totals filtered_df) - 1)%nat /\
    Forall (fun bar => is_finite (snd (fst bar)) = true)
           (Dashboard.create_growth_chart filtered_df).
Proof.
  intros d Hall. unfold Dashboard.create_growth_chart.
  rewrite length_map, growth_table_rows, combine_with_shift.
  rewrite <- monthly_data_totals in *. rewrite length_map.
  destruct (Notions.monthly_data d) as [|m ms]; [split; [reflexivity | constructor]|].
  assert (Hall' : Forall (fun x : Timestamp * Z => snd x <> 0) (m :: ms)).
  { rewrite Forall_forall in *. intros x Hx. apply Hall. now apply in_map. }
  destruct (growth_rows_nonzero ms m Hall') as [Hdrop Hfin].
  rewrite (dropna_first_month m), Hdrop. split.
  - rewrite length_map, length_combine. simpl List.length.
    rewrite length_map. lia.
  - apply Forall_map. cbn [fst snd]. exact Hfin.
Qed.

Lemma growth_chart_finite_witness :
  List.length (Dashboard.create_growth_chart
    [Dashboard.mkRow 1 "Box Product" (mkTimestamp 2023 4 30) 300 310 "Type B" 120;
     Dashboard.mkRow 2 "Box Product" (mkTimestamp 2023 5 1) 310 305 "Type B" 120;
     Dashboard.mkRow 3 "Box Product" (mkTimestamp 2023 6 2) 305 312 "Type B" 120]) =
  2%nat.
Proof.
  refine (proj1 (growth_chart_finite_when_totals_nonzero
    [Dashboard.mkRow 1 "Box Product" (mkTimestamp 2023 4 30) 300 310 "Type B" 120;
     Dashboard.mkRow 2 "Box Product" (mkTimestamp 2023 5 1) 310 305 "Type B" 120;
     Dashboard.mkRow 3 "Box Product" (mkTimestamp 2023 6 2) 305 312 "Type B" 120]
    _)).
  repeat constructor; discriminate.
Defined.

(** ** More on the conversation callback *)
Section CallbackFacts.
Import Dashboard Spec Notions.

Variable df : DataFrame.

(** The exact exception of the empty frame. *)
Lemma process_user_message_empty_frame_error w send enter ui h sp sy sc out :
  guard send enter ui = false ->
  filtered_frame df sp sy sc = [] ->
  fst (process_user_message df w send enter ui h sp sy sc out) =
  Raised (PyError "ValueError" "NaTType does not support strftime").
Proof.
  intros Hg He. unfold process_user_message.
  fold (guard send enter ui). rewrite Hg.
  destruct (filtered_df_of_returns df sp sy sc out) as [o1 H1].
  rewrite (bind_returned _ _ _ _ _ H1).
  destruct (context_loop_blocks w data_queries "" o1) as [o2 H2].
  rewrite (bind_returned _ _ _ _ _ H2).
  destruct (get_database_schema_returns w o2) as [db_schema [o3 H3]].
  rewrite (bind_returned _ _ _ _ _ H3).
  rewrite He.
  rewrite (bind_raised _ _ _ _ _ (db_context_of_empty _ o3)).
  reflexivity.
Qed.

(** What [run_sql_query] prints. *)
Lemma run_sql_query_log (w : World) (key query : string) (out : stdout) :
  run_sql_query w query None out =
  (Returned (query_result w query), (out ++ query_log w (key, query))%list).
Proof.
  unfold run_sql_query, query_result, query_log, try_except, bind, call, ret, print.
  simpl. destruct (read_sql_query w query None) as [rows|e].
  - rewrite app_nil_r. destruct rows; reflexivity.
  - now rewrite <- !app_assoc.
Qed.

Lemma context_loop_log (w : World) (queries : list (string * string)) :
  forall (ctx : string) (out : stdout),
    snd (context_loop w queries ctx out) =
    (out ++ flat_map (query_log w) queries)%list.
Proof.
  induction queries as [|[key query] rest IH]; intros ctx out.
  - simpl. now rewrite app_nil_r.
  - cbn [context_loop flat_map].
    rewrite (bind_returned _ _ _ _ _ (run_sql_query_log w key query out)).
    rewrite IH. now rewrite <- app_assoc.
Qed.

End CallbackFacts.

(** X6: whatever the store, the schema reader and the model do, the chat
    callback ends in one of three ways: it raises [PreventUpdate] exactly
    when the input is empty or no trigger fired; it raises the
    [ValueError] of formatting the date range exactly when it got past
    that test and the filters leave no row; otherwise it returns, with an
    empty input box and one rendered entry per stored message. *)
Theorem chat_callback_outcomes :
  forall (df : Dashboard.DataFrame) (w : Dashboard.World)
         (send_clicks enter_clicks : option Z) (user_input : option string)
         (history : option Dashboard.history_data)
         (selected_products : option (list string))
         (selected_year : Dashboard.year_value)
         (selected_category : option string) (out : stdout),
    match fst (Dashboard.process_user_message df w send_clicks enter_clicks
                 user_input history selected_products selected_year
                 selected_category out) with
    | Raised PreventUpdate =>
        Spec.guard send_clicks enter_clicks user_input = true
    | Raised (PyError cls msg) =>
        Spec.guard send_clicks enter_clicks user_input = false /\
        Spec.filtered_frame df selected_products selected_year selected_category = [] /\
        cls = "ValueError" /\ msg = "NaTType does not support strftime"
    | Returned (messages_ui, history', input_value, loading) =>
        Spec.guard send_clicks enter_clicks user_input = false /\
        Spec.filtered_frame df selected_products selected_year selected_category <> [] /\
        input_value = "" /\ loading = "" /\
        messages_ui =
        map Dashboard.render_message (Dashboard.messages_of (Some history'))
    end.
Proof.
  intros df w send enter ui h sp sy sc out.
  destruct (Spec.guard send enter ui) eqn:Hg.
  - now rewrite (process_user_message_guarded df w send enter ui h sp sy sc out Hg).
  - destruct (Spec.filtered_frame df sp sy sc) as [|r rest] eqn:Hf.
    + rewrite (process_user_message_empty_frame_error df w send enter ui h sp sy sc
                 out Hg Hf).
      repeat split.
    + assert (Hne : Spec.filtered_frame df sp sy sc <> [])
        by (rewrite Hf; discriminate).
      destruct (process_user_message_returns df w send enter ui h sp sy sc out Hg Hne)
        as [reply [out' ->]].
      cbn [fst]. repeat split. discriminate.
Qed.

(** X7: when the product list or the year is missing, filtering fails
    inside its [try] and the chat callback describes the whole frame:
    every other selection is dropped with it, and one line is printed. *)
Theorem chat_filter_falls_back_to_whole_frame :
  forall (df : Dashboard.DataFrame) (selected_products : option (list string))
         (selected_year : Dashboard.year_value)
         (selected_category : option string) (out : stdout),
    selected_products = None \/ selected_year = Dashboard.YearNone ->
    exists e : exn,
      Dashboard.filtered_df_of df selected_products selected_year
        selected_category out =
      (Returned df, (out ++ [("Error filtering dataframe: " ++ str e)%string])%list).
Proof.
  intros df sp sy sc out [-> | ->].
  - eexists. reflexivity.
  - destruct sp as [ps|]; eexists; reflexivity.
Qed.

Lemma chat_filter_falls_back_witness :
  exists e : exn,
    Dashboard.filtered_df_of Examples.df0 (Some ["Box Product"])
      Dashboard.YearNone (Some "Type A") [] =
    (Returned Examples.df0, ["Error filtering dataframe: " ++ str e]%string).
Proof.
  apply (chat_filter_falls_back_to_whole_frame Examples.df0
           (Some ["Box Product"]) Dashboard.YearNone (Some "Type A") []).
  right. reflexivity.
Defined.

(** X8: the context loop prints, for each catalog query that fails and in
    catalog order, the error, the query text and the traceback; it prints
    nothing for a query that answers, with rows or without. *)
Theorem context_loop_prints_failures_only :
  forall (w : Dashboard.World) (out : stdout),
    snd (Dashboard.context_loop w Dashboard.data_queries "" out) =
    (out ++ flat_map (Notions.query_log w) Dashboard.data_queries)%list.
Proof.
  intros w out. apply context_loop_log.
Qed.

(** X22: a run of N firings that each pass the guard (a text and a
    click) and whose selection leaves at least one row, from any stored
    history and with any mix of model successes and failures, leaves the
    messages that were stored, each at its position, followed by one user
    message and one assistant message per firing, in the order of the
    firings: N pairs, so the length grows by 2N. *)
Theorem answered_submissions_append_turns :
  forall (df : Dashboard.DataFrame) (subs : list Spec.submission)
         (history : option Dashboard.history_data) (out : stdout),
    Forall (fun s =>
              Spec.guard (Spec.send_clicks s) (Spec.enter_clicks s)
                (Spec.user_input s) = false /\
              Spec.filtered_frame df (Spec.selected_products s)
                (Spec.selected_year s) (Spec.selected_category s) <> []) subs ->
    let final := fst (Spec.submit_all df (history, out) subs) in
    List.length (Dashboard.messages_of final) =
    (List.length (Dashboard.messages_of history) + 2 * List.length subs)%nat /\
    (forall (i : nat) (m : Dashboard.message),
       nth_error (Dashboard.messages_of history) i = Some m ->
       nth_error (Dashboard.messages_of final) i = Some m) /\
    exists replies : list string,
      List.length replies = List.length subs /\
      Dashboard.messages_of final =
      (Dashboard.messages_of history ++ Spec.turns subs replies)%list.
Proof.
  intros df subs history out Hall final.
  destruct (submit_all_answered df subs history out Hall) as [replies [Hlen Hmsgs]].
  fold final in Hmsgs.
  split; [|split].
  - rewrite Hmsgs, length_app, turns_length by exact Hlen. reflexivity.
  - intros i m Hi. rewrite Hmsgs. rewrite nth_error_app1; [exact Hi|].
    apply nth_error_Some. now rewrite Hi.
  - exists replies. split; assumption.
Qed.

Lemma answered_submissions_witness :
  List.length
    (Dashboard.messages_of
       (fst (Spec.submit_all Examples.df0 (Some Dashboard.initial_history, [])
               [Spec.mkSubmission Examples.w_ok (Some 1) None (Some "hello")
                  (Some ["Box Product"]) Dashboard.YearAll (Some "all");
                Spec.mkSubmission Examples.w_model_fails None (Some 1)
                  (Some "and now?") None (Dashboard.YearInt 2023)
                  (Some "Type B")]))) = 5%nat.
Proof.
  refine (proj1 (answered_submissions_append_turns Examples.df0
                   [Spec.mkSubmission Examples.w_ok (Some 1) None (Some "hello")
                      (Some ["Box Product"]) Dashboard.YearAll (Some "all");
                    Spec.mkSubmission Examples.w_model_fails None (Some 1)
                      (Some "and now?") None (Dashboard.YearInt 2023)
                      (Some "Type B")]
                   (Some Dashboard.initial_history) [] _)).
  repeat constructor; discriminate.
Defined.

(** X9: [get_database_schema] returns for every world: the tables when
    the store answers, and after a failure the empty mapping with one
    printed line, from which the callback builds the preamble of a
    database without tables. *)
Theorem get_database_schema_total :
  forall (w : Dashboard.World) (out : stdout),
  exists (tables : list (string * list string)) (out' : stdout),
    Dashboard.get_database_schema w out = (Returned tables, out') /\
    match Dashboard.sqlite_schema w with
    | Returned t => tables = t /\ out' = out
    | Raised e =>
        tables = [] /\
        out' = (out ++ [("Error getting schema: " ++ str e)%string])%list /\
        Dashboard.schema_info_of tables = "Database tables: . "
    end.
Proof.
  intros w out.
  unfold Dashboard.get_database_schema, try_except, bind, call, ret, print.
  destruct (Dashboard.sqlite_schema w) as [t|e]; eexists; eexists;
    repeat split.
Qed.

(** ** Fenced code in replies *)
Section FenceFacts.
Import Dashboard Notions.

(** [split_fence] one character at a time: a fence starts a new part, any
    other character joins the first part of what follows. *)
Lemma split_fence_fence (rest : string) :
  split_fence (String backtick (String backtick (String backtick rest))) =
  "" :: split_fence rest.
Proof. reflexivity. Qed.

Lemma split_fence_other (c : ascii) (rest : string) :
  (forall rest', String c rest <>
                 String backtick (String backtick (String backtick rest'))) ->
  split_fence (String c rest) =
  match split_fence rest with
  | part :: parts => String c part :: parts
  | [] => [String c EmptyString]
  end.
Proof.
  intros Hno.
  destruct c as [[] [] [] [] [] [] [] []]; try reflexivity.
  destruct rest as [|c2 rest]; [reflexivity|].
  destruct c2 as [[] [] [] [] [] [] [] []]; try reflexivity.
  destruct rest as [|c3 rest]; [reflexivity|].
  destruct c3 as [[] [] [] [] [] [] [] []]; try reflexivity.
  exfalso. exact (Hno rest eq_refl).
Qed.

Lemma starts_with_fence_dec (s : string) :
  (exists rest, s = String backtick (String backtick (String backtick rest))) \/
  (forall rest, s <> String backtick (String backtick (String backtick rest))).
Proof.
  destruct s as [|c1 [|c2 [|c3 rest]]]; try (right; intros r; discriminate).
  destruct (ascii_dec c1 backtick) as [-> | H1];
    [|right; intros r [= E _ _]; contradiction].
  destruct (ascii_dec c2 backtick) as [-> | H2];
    [|right; intros r [= E _]; contradiction].
  destruct (ascii_dec c3 backtick) as [-> | H3];
    [|right; intros r [= E]; contradiction].
  left. exists rest. reflexivity.
Qed.

Lemma concat_cons_nonempty (sep x y : string) (l : list string) :
  String.concat sep (x :: y :: l) = (x ++ sep ++ String.concat sep (y :: l))%string.
Proof. reflexivity. Qed.

Lemma split_fence_joins (n : nat) :
  forall s : string,
    (String.length s <= n)%nat ->
    split_fence s <> [] /\ String.concat "```" (split_fence s) = s.
Proof.
  induction n as [|n IH]; intros s Hlen.
  - destruct s; [split; [discriminate | reflexivity] | simpl in Hlen; lia].
  - destruct s as [|c rest]; [split; [discriminate | reflexivity]|].
    destruct (starts_with_fence_dec (String c rest)) as [[rest' E] | Hno].
    + rewrite E, split_fence_fence. split; [discriminate|].
      assert (Hlen' : (String.length rest' <= n)%nat)
        by (rewrite E in Hlen; simpl in Hlen; lia).
      destruct (IH rest' Hlen') as [Hne Hjoin].
      destruct (split_fence rest') as [|p ps]; [contradiction|].
      rewrite concat_cons_nonempty, Hjoin. reflexivity.
    + rewrite (split_fence_other c rest Hno).
      assert (Hlen' : (String.length rest <= n)%nat) by (simpl in Hlen; lia).
      destruct (IH rest Hlen') as [Hne Hjoin].
      destruct (split_fence rest) as [|p ps]; [contradiction|].
      split; [discriminate|].
      rewrite <- Hjoin. destruct ps as [|q ps]; reflexivity.
Qed.

End FenceFacts.

(** X10: splitting a reply at its code fences loses no text: there is
    always at least one part, and the parts joined by the fence are the
    reply again. *)
Theorem split_fence_round_trip :
  forall text : string,
    Dashboard.split_fence text <> [] /\
    String.concat "```" (Dashboard.split_fence text) = text.
Proof.
  intros text. apply (split_fence_joins (String.length text)). lia.
Qed.

(** ** The export callback *)
Section ExportFacts.
Import Dashboard DashboardExport.

Lemma filter_isin_nil (d : DataFrame) :
  filter (fun r => isin [] (product_name r)) d = [].
Proof.
  induction d as [|r d IH]; simpl; [reflexivity | exact IH].
Qed.

Lemma filter_nil_pred {A : Type} (p : A -> bool) : filter p [] = [].
Proof. reflexivity. Qed.

End ExportFacts.

(** X11: for a clicked export with a non-empty product list, a year that
    is ['all'] or a non-zero number and a named category, [export_data]
    writes exactly the records [prepare_table_data] gives the data tab
    for the frame [render_tab_content] filters with the same selection,
    under the fixed file name, and prints nothing. *)
Theorem export_matches_data_tab :
  forall (df : Dashboard.DataFrame) (products_df : list Dashboard.product)
         (n_clicks : option Z) (p : string) (ps : list string)
         (selected_year : Dashboard.year_value) (c : string) (out : stdout),
    truthy_int n_clicks = true ->
    selected_year <> Dashboard.YearNone ->
    selected_year <> Dashboard.YearInt 0 ->
    c <> "" ->
    DashboardExport.export_data df products_df n_clicks (Some (p :: ps))
      selected_year (Some c) out =
    (Returned
       (Some (Dashboard.prepare_table_data products_df
                (Dashboard.filter_category (Some c)
                   (Dashboard.filter_year selected_year
                      (Dashboard.filter_products (Some (p :: ps)) df))),
              "art_decor_inventory_data.csv")),
     out).
Proof.
  intros df products_df n p ps sy c out Hn Hnone Hzero Hc.
  unfold DashboardExport.export_data. rewrite Hn.
  assert (Hc' : String.eqb c "" = false) by now apply String.eqb_neq.
  unfold Dashboard.filter_category. rewrite Hc'. cbn [orb].
  destruct sy as [| |y]; [contradiction | |].
  - unfold bind, ret. cbn [Dashboard.filter_year Dashboard.filter_products].
    destruct (String.eqb c "all"); reflexivity.
  - assert (Hy : (y =? 0) = false)
      by (apply Z.eqb_neq; intros ->; now apply Hzero).
    unfold bind, ret. cbn [Dashboard.filter_year Dashboard.filter_products].
    rewrite Hy. destruct (String.eqb c "all"); reflexivity.
Qed.

Lemma export_matches_data_tab_witness :
  DashboardExport.export_data Examples.df0
    [Dashboard.mkProduct "Box Product" "Type B" 120] (Some 1)
    (Some ["Box Product"]) (Dashboard.YearInt 2023) (Some "Type B") [] =
  (Returned
     (Some ([Dashboard.mkTableRecord 1 "Box Product" "Type B" "2023-05-01" 310 305
               (Some 120);
             Dashboard.mkTableRecord 3 "Box Product" "Type B" "2023-05-02" 305 312
               (Some 120)],
            "art_decor_inventory_data.csv")),
   []).
Proof.
  refine (export_matches_data_tab Examples.df0
            [Dashboard.mkProduct "Box Product" "Type B" 120] (Some 1)
            "Box Product" [] (Dashboard.YearInt 2023) "Type B" [] _ _ _ _);
    [reflexivity | discriminate..].
Defined.

(** X12: with an empty product list a clicked export writes no record,
    whatever the frame, the year and the category, while the same list
    leaves the frame of [render_tab_content] unrestricted. *)
Theorem export_of_empty_product_list_is_empty :
  forall (df : Dashboard.DataFrame) (products_df : list Dashboard.product)
         (n_clicks : option Z) (selected_year : Dashboard.year_value)
         (selected_category : option string) (out : stdout),
    truthy_int n_clicks = true ->
    selected_year <> Dashboard.YearNone ->
    DashboardExport.export_data df products_df n_clicks (Some [])
      selected_year selected_category out =
    (Returned (Some ([], "art_decor_inventory_data.csv")), out) /\
    Dashboard.filter_products (Some []) df = df.
Proof.
  intros df products_df n sy sc out Hn Hnone.
  split; [|reflexivity].
  unfold DashboardExport.export_data. rewrite Hn.
  unfold bind, ret. rewrite filter_isin_nil.
  destruct sy as [| |y]; [contradiction | |];
    destruct sc as [c|]; try destruct (String.eqb c "all"); reflexivity.
Qed.

Lemma export_of_empty_product_list_witness :
  DashboardExport.export_data Examples.df0 [] (Some 2) (Some [])
    Dashboard.YearAll (Some "all") [] =
  (Returned (Some ([], "art_decor_inventory_data.csv")), []).
Proof.
  refine (proj1 (export_of_empty_product_list_is_empty Examples.df0 [] (Some 2)
                   Dashboard.YearAll (Some "all") [] _ _));
    [reflexivity | discriminate].
Defined.

(** ** More on the movement generator *)
Section LedgerFacts.
Import RealtimeDataGen Notions.

Lemma update_instock_names (ps : list product) (name : string) (n : Z) :
  map (fun p => (product_name p, category p)) (update_instock ps name n) =
  map (fun p => (product_name p, category p)) ps.
Proof.
  unfold update_instock. rewrite map_map. apply map_ext. intros p.
  destruct (String.eqb (product_name p) name); reflexivity.
Qed.

Lemma update_instock_product_names (ps : list product) (name : string) (n : Z) :
  map product_name (update_instock ps name n) = map product_name ps.
Proof.
  unfold update_instock. rewrite map_map. apply map_ext. intros p.
  destruct (String.eqb (product_name p) name); reflexivity.
Qed.

(** With an empty [Products] table the call runs on a fresh database. *)
Lemma generate_movement_recreates (conn : database) (d : draws) (frequency : Z) :
  Products conn = [] ->
  generate_movement conn d frequency =
  generate_movement (create_database d) d frequency.
Proof.
  intros He. unfold generate_movement. rewrite He. reflexivity.
Qed.

(** With products in the table, the call picks one of them, rewrites its
    stock and appends one movement. *)
Lemma generate_movement_step (conn : database) (d : draws) (frequency : Z) :
  Products conn <> [] ->
  exists name : string,
    In name (map product_name (Products conn)) /\
    fst (generate_movement conn d frequency) =
    mkDatabase
      (update_instock (Products conn) name
         (snd (move_stock (choice d) (randint d) frequency
                 (select_instock (Products conn) name))))
      (InventoryMovements conn ++
       [mkMovement (next_movement_id conn)
          name (now d) (choice d)
          (fst (move_stock (choice d) (randint d) frequency
                  (select_instock (Products conn) name)))])%list
      (next_movement_id conn).
Proof.
  intros Hne. unfold generate_movement.
  destruct (Products conn) as [|p0 ps] eqn:Hp; [contradiction|].
  rewrite Hp.
  destruct (nth_error (p0 :: ps)
              (Nat.modulo (random_row d) (List.length (p0 :: ps)))) as [p|] eqn:Hnth.
  - exists (product_name p). split.
    + apply in_map. eapply nth_error_In. exact Hnth.
    + destruct (move_stock (choice d) (randint d) frequency
                  (select_instock (p0 :: ps) (product_name p))) as [q n].
      reflexivity.
  - apply nth_error_None in Hnth.
    pose proof (Nat.mod_upper_bound (random_row d) (List.length (p0 :: ps))) as Hb.
    simpl List.length in *. lia.
Qed.

(** On an open connection the call returns [True]. *)
Lemma generate_movement_ok (conn : database) (d : draws) (frequency : Z) :
  generate_movement conn d frequency =
  (fst (generate_movement conn d frequency), true).
Proof.
  unfold generate_movement.
  destruct (move_stock _ _ _ _) as [q n]. reflexivity.
Qed.

(** On a closed connection no call changes the store or the count. *)
Lemma simulate_loop_closed (conn : database) (frequency : Z) (ds : list draws)
    (n : Z) :
  simulate_loop conn true frequency ds n = (conn, n).
Proof.
  induction ds as [|d ds IH]; [reflexivity | exact IH].
Qed.

(** The store the loop leaves does not depend on the count it starts
    from. *)
Lemma simulate_loop_store (ds : list draws) (frequency : Z) :
  forall (conn : database) (closed : bool) (n : Z),
    fst (simulate_loop conn closed frequency ds n) =
    fst (simulate_loop conn closed frequency ds 0).
Proof.
  induction ds as [|d ds IH]; intros conn closed n; [reflexivity|].
  cbn [simulate_loop]. destruct closed; [apply IH|].
  rewrite (generate_movement_ok conn d frequency).
  rewrite (IH _ _ (n + 1)), (IH _ _ (0 + 1)). reflexivity.
Qed.

(** With products in the table the loop goes on from the store the first
    call leaves. *)
Lemma simulate_cons (conn : database) (frequency : Z) (d : draws)
    (ds : list draws) :
  Products conn <> [] ->
  simulate conn frequency (d :: ds) =
  simulate (fst (generate_movement conn d frequency)) frequency ds.
Proof.
  intros Hne. unfold simulate. cbn [simulate_loop].
  rewrite (generate_movement_ok conn d frequency).
  unfold closes_connection.
  destruct (Products conn); [contradiction|].
  apply simulate_loop_store.
Qed.

(** With an empty table the first call leaves the connection of the loop
    closed: the store stays as that call leaves it. *)
Lemma simulate_cons_closed (conn : database) (frequency : Z) (d : draws)
    (ds : list draws) :
  Products conn = [] ->
  simulate conn frequency (d :: ds) = fst (generate_movement conn d frequency).
Proof.
  intros He. unfold simulate. cbn [simulate_loop].
  rewrite (generate_movement_ok conn d frequency).
  unfold closes_connection. rewrite He.
  rewrite simulate_loop_closed. reflexivity.
Qed.




Lemma select_instock_in (ps : list product) (name : string) :
  In name (map product_name ps) ->
  exists p, In p ps /\ select_instock ps name = instock_items p.
Proof.
  intros Hin. unfold select_instock.
  destruct (find (fun p => String.eqb (product_name p) name) ps) as [p|] eqn:Hf.
  - exists p. split; [|reflexivity]. now apply find_some in Hf.
  - exfalso. apply in_map_iff in Hin. destruct Hin as [p [Hname Hp]].
    pose proof (find_none _ _ Hf p Hp) as Hno. simpl in Hno.
    rewrite Hname, String.eqb_refl in Hno. discriminate.
Qed.

Lemma move_stock_quantity_positive (movement_type : string)
    (randint frequency current_stock : Z) :
  1 <= randint -> 1 <= frequency ->
  1 <= fst (move_stock movement_type randint frequency current_stock).
Proof.
  intros Hr Hf. unfold move_stock. cbn [fst].
  destruct (String.eqb movement_type "outgoing"); [|nia].
  destruct (current_stock <? randint * frequency); [lia | nia].
Qed.

Lemma move_stock_signed (movement_type : string)
    (randint frequency current_stock : Z) :
  snd (move_stock movement_type randint frequency current_stock) =
  current_stock +
  (if String.eqb movement_type "incoming"
   then fst (move_stock movement_type randint frequency current_stock)
   else - fst (move_stock movement_type randint frequency current_stock)).
Proof.
  unfold move_stock. cbn [fst snd].
  destruct (String.eqb movement_type "incoming"); lia.
Qed.

(** Rewriting the stock of a listed product changes the total by the
    difference, when names are unique. *)
Lemma total_after_update (ps : list product) (name : string) (n : Z) :
  NoDup (map product_name ps) ->
  In name (map product_name ps) ->
  sum_int (map instock_items (update_instock ps name n)) =
  sum_int (map instock_items ps) - select_instock ps name + n.
Proof.
  unfold select_instock, update_instock.
  induction ps as [|p ps IH]; intros Hnd Hin; [contradiction|].
  cbn [map] in Hnd. apply NoDup_cons_iff in Hnd. destruct Hnd as [Hnotin Hnd].
  cbn [map find].
  destruct (String.eqb (product_name p) name) eqn:Hp.
  - apply String.eqb_eq in Hp. subst name.
    assert (Hid : map (fun p0 : product =>
                         if String.eqb (product_name p0) (product_name p)
                         then mkProduct (product_name p0) (category p0) n
                         else p0) ps = ps).
    { rewrite <- (map_id ps) at 2. apply map_ext_in. intros q Hq.
      destruct (String.eqb (product_name q) (product_name p)) eqn:Hq';
        [|reflexivity].
      apply String.eqb_eq in Hq'. exfalso. apply Hnotin.
      rewrite <- Hq'. now apply in_map. }
    rewrite Hid. unfold sum_int. simpl. lia.
  - destruct Hin as [Hin | Hin].
    + rewrite Hin, String.eqb_refl in Hp. discriminate.
    + specialize (IH Hnd Hin).
      unfold sum_int in *. simpl. rewrite IH. lia.
Qed.

End LedgerFacts.

Section GeneratorInvariants.
Import RealtimeDataGen Notions.

Lemma valid_draws_randint (d : draws) :
  valid_draws d ->
  1 <= randint d /\ (choice d = "incoming" \/ choice d = "outgoing").
Proof.
  intros [[[Hc Hr] | [Hc Hr]] _]; split; try lia; [now left | now right].
Qed.

Lemma create_database_nonempty (d : draws) : Products (create_database d) <> [].
Proof. discriminate. Qed.

(** One call keeps every recorded quantity at 1 or more. *)
Lemma generate_movement_quantities (conn : database) (d : draws) (frequency : Z) :
  valid_draws d -> 1 <= frequency ->
  Forall (fun m => 1 <= quantity m) (InventoryMovements conn) ->
  Forall (fun m => 1 <= quantity m)
         (InventoryMovements (fst (generate_movement conn d frequency))).
Proof.
  intros Hd Hf Hall. destruct (valid_draws_randint d Hd) as [Hr _].
  assert (Hstep : forall c,
            Products c <> [] ->
            Forall (fun m => 1 <= quantity m) (InventoryMovements c) ->
            Forall (fun m => 1 <= quantity m)
                   (InventoryMovements (fst (generate_movement c d frequency)))).
  { intros c Hne Hc.
    destruct (generate_movement_step c d frequency Hne) as [name [_ ->]].
    cbn [InventoryMovements]. apply Forall_app. split; [exact Hc|].
    constructor; [|constructor]. cbn [quantity].
    now apply move_stock_quantity_positive. }
  destruct (Products conn) as [|p ps] eqn:Hp.
  - rewrite (generate_movement_recreates conn d frequency Hp).
    apply Hstep; [apply create_database_nonempty | constructor].
  - apply Hstep; [rewrite Hp; discriminate | exact Hall].
Qed.

(** One call on a table with unique names keeps the table's names and
    moves the total stock by the signed quantity it records. *)
Lemma generate_movement_ledger (conn : database) (d : draws) (frequency : Z) :
  Products conn <> [] ->
  NoDup (map product_name (Products conn)) ->
  let conn' := fst (generate_movement conn d frequency) in
  map product_name (Products conn') = map product_name (Products conn) /\
  total_stock conn' - net_movement (InventoryMovements conn') =
  total_stock conn - net_movement (InventoryMovements conn).
Proof.
  intros Hne Hnd conn'. subst conn'.
  destruct (generate_movement_step conn d frequency Hne) as [name [Hin ->]].
  cbn [Products InventoryMovements]. split.
  - apply update_instock_product_names.
  - unfold total_stock, net_movement. cbn [Products].
    rewrite (total_after_update _ _ _ Hnd Hin).
    rewrite map_app, sum_int_app. cbn [map].
    unfold signed_quantity at 2. cbn [movement_type quantity].
    rewrite (move_stock_signed (choice d) (randint d) frequency
               (select_instock (Products conn) name)).
    assert (Hone : forall x : Z, sum_int [x] = x)
      by (intros x; unfold sum_int; simpl; lia).
    rewrite Hone.
    destruct (String.eqb (choice d) "incoming"); lia.
Qed.

End GeneratorInvariants.

(** X13: every movement the generator records moves at least one item:
    with draws in their ranges and a frequency of 1 or more, a run of
    calls keeps all recorded quantities at 1 or more, also for an
    outgoing movement on an empty stock. *)
Theorem recorded_quantities_are_positive :
  forall (conn : RealtimeDataGen.database) (frequency : Z)
         (ds : list RealtimeDataGen.draws),
    Forall RealtimeDataGen.valid_draws ds ->
    1 <= frequency ->
    Forall (fun m => 1 <= RealtimeDataGen.quantity m)
           (RealtimeDataGen.InventoryMovements conn) ->
    Forall (fun m => 1 <= RealtimeDataGen.quantity m)
           (RealtimeDataGen.InventoryMovements
              (RealtimeDataGen.simulate conn frequency ds)).
Proof.
  intros conn f ds. revert conn.
  induction ds as [|d ds IH]; intros conn Hds Hf Hall; [exact Hall|].
  inversion Hds as [|? ? Hd Hrest]; subst.
  destruct (RealtimeDataGen.Products conn) as [|p ps] eqn:Hp.
  - rewrite (simulate_cons_closed conn f d ds Hp).
    now apply generate_movement_quantities.
  - rewrite (simulate_cons conn f d ds) by (rewrite Hp; discriminate).
    apply (IH _ Hrest Hf).
    now apply generate_movement_quantities.
Qed.

Lemma recorded_quantities_witness :
  Forall (fun m => 1 <= RealtimeDataGen.quantity m)
    (RealtimeDataGen.InventoryMovements
       (RealtimeDataGen.simulate
          (RealtimeDataGen.mkDatabase
             [RealtimeDataGen.mkProduct "Box Product" "Type B" 0] [] 0)
          5
          [RealtimeDataGen.mkDraws 0 "outgoing" 2 50 100 "2024-01-01 00:00:00";
           RealtimeDataGen.mkDraws 3 "incoming" 7 50 100 "2024-01-01 00:00:02"])).
Proof.
  apply (recorded_quantities_are_positive
           (RealtimeDataGen.mkDatabase
              [RealtimeDataGen.mkProduct "Box Product" "Type B" 0] [] 0)
           5
           [RealtimeDataGen.mkDraws 0 "outgoing" 2 50 100 "2024-01-01 00:00:00";
            RealtimeDataGen.mkDraws 3 "incoming" 7 50 100 "2024-01-01 00:00:02"]).
  - constructor; [|constructor; [|constructor]];
      unfold RealtimeDataGen.valid_draws; simpl.
    + split; [right; split; [reflexivity | lia] | lia].
    + split; [left; split; [reflexivity | lia] | lia].
  - lia.
  - constructor.
Defined.

(** X14: the stock and the movement log stay in step: on a table with at
    least one product and unique product names, a run of calls leaves the
    names as they are, and the total stock minus the net recorded
    movement (incoming minus outgoing quantities) is the same after the
    run as before it. *)
Theorem stock_follows_recorded_movements :
  forall (conn : RealtimeDataGen.database) (frequency : Z)
         (ds : list RealtimeDataGen.draws),
    RealtimeDataGen.Products conn <> [] ->
    NoDup (map RealtimeDataGen.product_name (RealtimeDataGen.Products conn)) ->
    let conn' := RealtimeDataGen.simulate conn frequency ds in
    map RealtimeDataGen.product_name (RealtimeDataGen.Products conn') =
    map RealtimeDataGen.product_name (RealtimeDataGen.Products conn) /\
    Notions.total_stock conn' -
    Notions.net_movement (RealtimeDataGen.InventoryMovements conn') =
    Notions.total_stock conn -
    Notions.net_movement (RealtimeDataGen.InventoryMovements conn).
Proof.
  intros conn f ds. revert conn.
  induction ds as [|d ds IH]; intros conn Hne Hnd; [split; reflexivity|].
  destruct (generate_movement_ledger conn d f Hne Hnd) as [Hnames Hledger].
  cbv zeta. rewrite (simulate_cons conn f d ds Hne).
  assert (Hne' : RealtimeDataGen.Products
                   (fst (RealtimeDataGen.generate_movement conn d f)) <> []).
  { intros He. rewrite He in Hnames. destruct (RealtimeDataGen.Products conn);
      [now apply Hne | discriminate]. }
  assert (Hnd' : NoDup (map RealtimeDataGen.product_name
                          (RealtimeDataGen.Products
                             (fst (RealtimeDataGen.generate_movement conn d f)))))
    by now rewrite Hnames.
  destruct (IH _ Hne' Hnd') as [Hn Hl].
  split; [now rewrite Hn | now rewrite Hl].
Qed.

Lemma stock_follows_recorded_movements_witness :
  Notions.total_stock
    (RealtimeDataGen.simulate
       (RealtimeDataGen.create_database
          (RealtimeDataGen.mkDraws 0 "outgoing" 3 50 100 "2024-01-01 00:00:00"))
       10
       [RealtimeDataGen.mkDraws 0 "outgoing" 3 50 100 "2024-01-01 00:00:00";
        RealtimeDataGen.mkDraws 1 "incoming" 4 50 100 "2024-01-01 00:00:02"]) -
  Notions.net_movement
    (RealtimeDataGen.InventoryMovements
       (RealtimeDataGen.simulate
          (RealtimeDataGen.create_database
             (RealtimeDataGen.mkDraws 0 "outgoing" 3 50 100 "2024-01-01 00:00:00"))
          10
          [RealtimeDataGen.mkDraws 0 "outgoing" 3 50 100 "2024-01-01 00:00:00";
           RealtimeDataGen.mkDraws 1 "incoming" 4 50 100 "2024-01-01 00:00:02"])) =
  150.
Proof.
  refine (proj2 (stock_follows_recorded_movements
    (RealtimeDataGen.create_database
       (RealtimeDataGen.mkDraws 0 "outgoing" 3 50 100 "2024-01-01 00:00:00"))
    10
    [RealtimeDataGen.mkDraws 0 "outgoing" 3 50 100 "2024-01-01 00:00:00";
     RealtimeDataGen.mkDraws 1 "incoming" 4 50 100 "2024-01-01 00:00:02"]
    _ _)).
  - discriminate.
  - repeat constructor; simpl; intuition discriminate.
Defined.

Section GeneratorSteps.
Import RealtimeDataGen Notions.




Lemma update_instock_forall (P : product -> Prop) (ps : list product)
    (name : string) (n : Z) :
  Forall P ps ->
  (forall p, In p ps -> P (mkProduct (product_name p) (category p) n)) ->
  Forall P (update_instock ps name n).
Proof.
  intros Hall Hnew. unfold update_instock. apply Forall_map.
  rewrite Forall_forall in *. intros p Hp.
  destruct (String.eqb (product_name p) name); [now apply Hnew | now apply Hall].
Qed.

End GeneratorSteps.

(** X15: from a table where every product has at least one item in
    stock, one generated movement (draws in their ranges, frequency not
    negative) leaves no product with a negative stock. *)
Theorem stock_stays_nonnegative_from_positive :
  forall (conn : RealtimeDataGen.database) (d : RealtimeDataGen.draws)
         (frequency : Z),
    RealtimeDataGen.valid_draws d ->
    0 <= frequency ->
    Forall (fun p => 1 <= RealtimeDataGen.instock_items p)
           (RealtimeDataGen.Products conn) ->
    Forall (fun p => 0 <= RealtimeDataGen.instock_items p)
           (RealtimeDataGen.Products
              (fst (RealtimeDataGen.generate_movement conn d frequency))).
Proof.
  intros conn d f Hd Hf Hall.
  destruct (valid_draws_randint d Hd) as [Hr Hchoice].
  assert (Hstep : forall c,
            RealtimeDataGen.Products c <> [] ->
            Forall (fun p => 1 <= RealtimeDataGen.instock_items p)
                   (RealtimeDataGen.Products c) ->
            Forall (fun p => 0 <= RealtimeDataGen.instock_items p)
                   (RealtimeDataGen.Products
                      (fst (RealtimeDataGen.generate_movement c d f)))).
  { intros c Hne Hc.
    destruct (generate_movement_step c d f Hne) as [name [Hin ->]].
    cbn [RealtimeDataGen.Products].
    apply update_instock_forall.
    - eapply Forall_impl; [|exact Hc]. intros p Hp. simpl in Hp. lia.
    - intros p _. cbn [RealtimeDataGen.instock_items].
      destruct (select_instock_in _ _ Hin) as [q [Hq Hsel]].
      apply move_stock_from_positive; [exact Hchoice | | nia].
      rewrite Hsel. rewrite Forall_forall in Hc. now apply Hc. }
  destruct (RealtimeDataGen.Products conn) as [|p ps] eqn:Hp.
  - rewrite (generate_movement_recreates conn d f Hp).
    apply Hstep; [discriminate|].
    destruct Hd as [_ [Hcyl Hbox]].
    repeat constructor; simpl; lia.
  - apply Hstep; [rewrite Hp; discriminate | rewrite Hp; exact Hall].
Qed.

Lemma stock_stays_nonnegative_witness :
  Forall (fun p => 0 <= RealtimeDataGen.instock_items p)
    (RealtimeDataGen.Products
       (fst (RealtimeDataGen.generate_movement
               (RealtimeDataGen.mkDatabase
                  [RealtimeDataGen.mkProduct "Box Product" "Type B" 2] [] 0)
               (RealtimeDataGen.mkDraws 0 "outgoing" 3 50 100 "2024-01-01 00:00:00")
               10))).
Proof.
  apply (stock_stays_nonnegative_from_positive
           (RealtimeDataGen.mkDatabase
              [RealtimeDataGen.mkProduct "Box Product" "Type B" 2] [] 0)
           (RealtimeDataGen.mkDraws 0 "outgoing" 3 50 100 "2024-01-01 00:00:00")
           10).
  - unfold RealtimeDataGen.valid_draws; simpl.
    split; [right; split; [reflexivity | lia] | lia].
  - lia.
  - constructor; [simpl; lia | constructor].
Defined.



(** X17: a call that finds the [Products] table empty recreates the
    database: whatever was in the movement log is gone, the table holds
    the two sample products, and the log holds the one new movement,
    numbered 1. *)
Theorem empty_products_table_recreates_database :
  forall (log : list RealtimeDataGen.movement) (largest_id : Z)
         (d : RealtimeDataGen.draws) (frequency : Z),
    let conn' :=
      fst (RealtimeDataGen.generate_movement
             (RealtimeDataGen.mkDatabase [] log largest_id) d frequency) in
    map (fun p => (RealtimeDataGen.product_name p, RealtimeDataGen.category p))
        (RealtimeDataGen.Products conn') =
    [("Cylindrical Product", "Type A"); ("Box Product", "Type B")] /\
    exists m : RealtimeDataGen.movement,
      RealtimeDataGen.InventoryMovements conn' = [m] /\
      RealtimeDataGen.movement_id m = 1.
Proof.
  intros log largest_id d f conn'. subst conn'.
  rewrite (generate_movement_recreates
             (RealtimeDataGen.mkDatabase [] log largest_id) d f)
    by reflexivity.
  destruct (generate_movement_step (RealtimeDataGen.create_database d) d f
              (create_database_nonempty d)) as [name [_ ->]].
  cbn [RealtimeDataGen.Products RealtimeDataGen.InventoryMovements].
  split.
  - rewrite update_instock_names. reflexivity.
  - eexists. split; reflexivity.
Qed.

(** X23: a run of calls that starts on an empty [Products] table records
    one movement, whatever the number of calls: the first call closes
    the connection of the loop when it recreates the database, so the
    store stays as that call leaves it and one transaction is counted. *)
Theorem run_on_empty_table_records_one_movement :
  forall (log : list RealtimeDataGen.movement) (largest_id frequency : Z)
         (d : RealtimeDataGen.draws) (ds : list RealtimeDataGen.draws),
    let conn := RealtimeDataGen.mkDatabase [] log largest_id in
    RealtimeDataGen.simulate conn frequency (d :: ds) =
    fst (RealtimeDataGen.generate_movement conn d frequency) /\
    List.length
      (RealtimeDataGen.InventoryMovements
         (RealtimeDataGen.simulate conn frequency (d :: ds))) = 1%nat /\
    snd (RealtimeDataGen.simulate_loop conn false frequency (d :: ds) 0) = 1.
Proof.
  intros log largest_id f d ds conn.
  assert (Hrun : RealtimeDataGen.simulate conn f (d :: ds) =
                 fst (RealtimeDataGen.generate_movement conn d f))
    by (apply simulate_cons_closed; reflexivity).
  split; [exact Hrun|]. split.
  - rewrite Hrun.
    rewrite (generate_movement_recreates conn d f) by reflexivity.
    destruct (generate_movement_step (RealtimeDataGen.create_database d) d f
                (create_database_nonempty d)) as [name [_ ->]].
    reflexivity.
  - cbn [RealtimeDataGen.simulate_loop].
    rewrite (generate_movement_ok conn d f).
    unfold RealtimeDataGen.closes_connection. subst conn.
    cbn [RealtimeDataGen.Products].
    rewrite simulate_loop_closed. reflexivity.
Qed.

(** ** The movement summary *)
Section SummaryFacts.
Import RealtimeDashboard Notions.

Lemma guarded_sum (l : list movement) :
  (if negb (empty l) then quantity_sum l else 0) = quantity_sum l.
Proof. destruct l; reflexivity. Qed.

Lemma summary_of_frame (df : list movement) :
  get_summary_metrics df =
  mkMetrics (len df) (len (filter is_incoming df)) (len (filter is_outgoing df))
            (quantity_sum (filter is_incoming df))
            (quantity_sum (filter is_outgoing df))
            (wrap_int64 (quantity_sum (filter is_incoming df) -
                         quantity_sum (filter is_outgoing df))).
Proof.
  destruct df as [|m df]; [reflexivity|].
  unfold get_summary_metrics. cbn [empty].
  now rewrite !guarded_sum.
Qed.

(** Typed rows fall in exactly one of the two selections. *)
Lemma typed_partition (f : movement -> Z) (df : list movement) :
  Forall (fun m => movement_type m = "incoming" \/ movement_type m = "outgoing") df ->
  len (filter is_incoming df) + len (filter is_outgoing df) = len df /\
  sum_int (map f (filter is_incoming df)) +
  sum_int (map f (filter is_outgoing df)) = sum_int (map f df).
Proof.
  unfold len, is_incoming, is_outgoing.
  induction 1 as [|m df Hm Hall [IHlen IHsum]]; [split; reflexivity|].
  cbn [filter].
  destruct Hm as [Hm | Hm]; rewrite Hm; cbn [String.eqb Ascii.eqb Bool.eqb andb];
    cbn [List.length]; rewrite ?Nat2Z.inj_succ, ?map_cons, ?sum_int_cons;
    split; lia.
Qed.

(** No row is in both selections. *)
Lemma selections_within (f : movement -> Z) (df : list movement) :
  (forall m, 0 <= f m) ->
  sum_int (map f (filter is_incoming df)) +
  sum_int (map f (filter is_outgoing df)) <= sum_int (map f df).
Proof.
  intros Hf. induction df as [|m df IH]; [simpl; lia|].
  cbn [filter]. unfold is_incoming at 1, is_outgoing at 1.
  specialize (Hf m).
  destruct (String.eqb_spec (movement_type m) "incoming") as [Hin | Hin];
    destruct (String.eqb_spec (movement_type m) "outgoing") as [Hout | Hout];
    rewrite ?map_cons, ?sum_int_cons; try lia.
  rewrite Hin in Hout. discriminate.
Qed.

(** When the absolute quantities add up to less than 2^63 the int64 sums
    of the two selections are the exact sums. *)
Lemma selections_exact (df : list movement) :
  sum_int (map (fun m => Z.abs (quantity m)) df) < 2 ^ 63 ->
  quantity_sum (filter is_incoming df) =
  sum_int (map quantity (filter is_incoming df)) /\
  quantity_sum (filter is_outgoing df) =
  sum_int (map quantity (filter is_outgoing df)) /\
  - 2 ^ 63 < sum_int (map quantity (filter is_incoming df)) -
             sum_int (map quantity (filter is_outgoing df)) < 2 ^ 63.
Proof.
  intros Hsmall.
  pose proof (selections_within (fun m => Z.abs (quantity m)) df
                (fun m => Z.abs_nonneg _)) as Hwithin.
  pose proof (sum_int_abs quantity (filter is_incoming df)) as Hin.
  pose proof (sum_int_abs quantity (filter is_outgoing df)) as Hout.
  pose proof (sum_int_nonneg (fun m => Z.abs (quantity m)) (filter is_incoming df)
                (fun m => Z.abs_nonneg _)) as Hin0.
  pose proof (sum_int_nonneg (fun m => Z.abs (quantity m)) (filter is_outgoing df)
                (fun m => Z.abs_nonneg _)) as Hout0.
  unfold quantity_sum, sum_int64.
  rewrite !wrap_int64_small by lia. repeat split; lia.
Qed.

End SummaryFacts.

(** X18: when every movement of the frame is typed incoming or outgoing
    and the absolute quantities add up to less than 2^63 (so that no
    int64 sum wraps), the summary counts and quantities split the frame:
    the two counts add up to the number of movements, the two item totals
    add up to the sum of all quantities, and the net change is incoming
    minus outgoing items. *)
Theorem summary_metrics_split_the_frame :
  forall df : list RealtimeDashboard.movement,
    Forall (fun m => RealtimeDashboard.movement_type m = "incoming" \/
                     RealtimeDashboard.movement_type m = "outgoing") df ->
    sum_int (map (fun m => Z.abs (RealtimeDashboard.quantity m)) df) < 2 ^ 63 ->
    let metrics := RealtimeDashboard.get_summary_metrics df in
    RealtimeDashboard.total_movements metrics =
    RealtimeDashboard.incoming_count metrics +
    RealtimeDashboard.outgoing_count metrics /\
    RealtimeDashboard.incoming_items metrics +
    RealtimeDashboard.outgoing_items metrics =
    sum_int (map RealtimeDashboard.quantity df) /\
    RealtimeDashboard.net_change metrics =
    RealtimeDashboard.incoming_items metrics -
    RealtimeDashboard.outgoing_items metrics /\
    RealtimeDashboard.total_movements metrics = Z.of_nat (List.length df).
Proof.
  intros df Hall Hsmall metrics. subst metrics.
  destruct (typed_partition RealtimeDashboard.quantity df Hall) as [Hlen Hsum].
  destruct (selections_exact df Hsmall) as [Hin [Hout Hnet]].
  rewrite summary_of_frame.
  cbn [RealtimeDashboard.total_movements RealtimeDashboard.incoming_count
       RealtimeDashboard.outgoing_count RealtimeDashboard.incoming_items
       RealtimeDashboard.outgoing_items RealtimeDashboard.net_change].
  rewrite Hin, Hout.
  split; [lia|]. split; [exact Hsum|].
  split; [apply wrap_int64_small; lia | reflexivity].
Qed.

Lemma summary_metrics_split_witness :
  RealtimeDashboard.total_movements
    (RealtimeDashboard.get_summary_metrics
       [RealtimeDashboard.mkMovement 1 "Box Product" "Type B"
          "2024-01-01 00:00:00" "incoming" 20 120;
        RealtimeDashboard.mkMovement 2 "Box Product" "Type B"
          "2024-01-01 00:00:02" "outgoing" 3 120]) = 2.
Proof.
  refine (proj2 (proj2 (proj2 (summary_metrics_split_the_frame
    [RealtimeDashboard.mkMovement 1 "Box Product" "Type B"
       "2024-01-01 00:00:00" "incoming" 20 120;
     RealtimeDashboard.mkMovement 2 "Box Product" "Type B"
       "2024-01-01 00:00:02" "outgoing" 3 120] _ _)))).
  - constructor; [left; reflexivity|]. constructor; [right; reflexivity|].
    constructor.
  - reflexivity.
Defined.

(** ** The data table *)
Section TableFacts.
Import Dashboard.

Lemma instock_lookup_none (products_df : list product) (name : string) :
  option_map p_instock_items
    (find (fun p => String.eqb (p_product_name p) name) products_df) = None <->
  ~ In name (map p_product_name products_df).
Proof.
  destruct (find (fun p => String.eqb (p_product_name p) name) products_df)
    as [p|] eqn:Hf; simpl.
  - split; [discriminate|]. intros Hno. exfalso. apply Hno.
    apply find_some in Hf. destruct Hf as [Hp Heq].
    apply String.eqb_eq in Heq. rewrite <- Heq. now apply in_map.
  - split; [|reflexivity]. intros _ Hin.
    apply in_map_iff in Hin. destruct Hin as [p [Hname Hp]].
    pose proof (find_none _ _ Hf p Hp) as Hno. simpl in Hno.
    rewrite Hname, String.eqb_refl in Hno. discriminate.
Qed.

End TableFacts.

(** X19: the data table has one record per row of the frame, in frame
    order, and a record has no in-stock figure exactly when its product
    is not listed in [Products]. *)
Theorem table_data_keeps_rows_and_marks_unknown_products :
  forall (products_df : list Dashboard.product)
         (filtered_df : Dashboard.DataFrame),
    map Dashboard.t_id (Dashboard.prepare_table_data products_df filtered_df) =
    map Dashboard.id filtered_df /\
    (forall rec : Dashboard.table_record,
       In rec (Dashboard.prepare_table_data products_df filtered_df) ->
       (Dashboard.t_instock_items rec = None <->
        ~ In (Dashboard.t_product_name rec)
             (map Dashboard.p_product_name products_df))).
Proof.
  intros products_df d. unfold Dashboard.prepare_table_data. split.
  - rewrite map_map. reflexivity.
  - intros rec Hin. apply in_map_iff in Hin. destruct Hin as [r [<- _]].
    cbn [Dashboard.t_instock_items Dashboard.t_product_name].
    apply instock_lookup_none.
Qed.

(** X20: when the absolute quantities of the frame add up to less than
    2^63 (so that no int64 sum wraps), the KPI cards show the frame
    itself: the incoming and outgoing cards are the summed quantities of
    the movements of each type, the total card is the number of
    movements, and the net-change card is styled positive, negative or
    neutral as the incoming sum is above, below or equal to the outgoing
    sum; an empty frame shows what an absent one shows. *)
Theorem kpi_cards_show_the_frame :
  forall df : list RealtimeDashboard.movement,
    sum_int (map (fun m => Z.abs (RealtimeDashboard.quantity m)) df) < 2 ^ 63 ->
    let incoming_sum :=
      sum_int
        (map RealtimeDashboard.quantity
           (filter (fun m => String.eqb (RealtimeDashboard.movement_type m) "incoming")
                   df)) in
    let outgoing_sum :=
      sum_int
        (map RealtimeDashboard.quantity
           (filter (fun m => String.eqb (RealtimeDashboard.movement_type m) "outgoing")
                   df)) in
    (let '(incoming, outgoing, _, net_change_class, total_movements) :=
       RealtimeKpi.update_kpi_values (Some df) in
     incoming = RealtimeKpi.format_thousands incoming_sum /\
     outgoing = RealtimeKpi.format_thousands outgoing_sum /\
     total_movements =
     RealtimeKpi.format_thousands (Z.of_nat (List.length df)) /\
     net_change_class =
     match incoming_sum ?= outgoing_sum with
     | Gt => "kpi-value positive"
     | Lt => "kpi-value negative"
     | Eq => "kpi-value neutral"
     end) /\
    RealtimeKpi.update_kpi_values (Some []) = RealtimeKpi.update_kpi_values None.
Proof.
  intros df Hsmall incoming_sum outgoing_sum. split; [|reflexivity].
  destruct (selections_exact df Hsmall) as [Hin [Hout Hnet]].
  unfold RealtimeKpi.update_kpi_values.
  rewrite (summary_of_frame df).
  cbn [RealtimeDashboard.incoming_items RealtimeDashboard.outgoing_items
       RealtimeDashboard.net_change RealtimeDashboard.total_movements].
  rewrite Hin, Hout.
  change (sum_int (map RealtimeDashboard.quantity (filter Notions.is_incoming df)))
    with incoming_sum in *.
  change (sum_int (map RealtimeDashboard.quantity (filter Notions.is_outgoing df)))
    with outgoing_sum in *.
  rewrite (wrap_int64_small (incoming_sum - outgoing_sum)) by lia.
  destruct (0 <? incoming_sum - outgoing_sum) eqn:Hpos;
    [|destruct (incoming_sum - outgoing_sum <? 0) eqn:Hneg];
    repeat split;
    destruct (Z.compare_spec incoming_sum outgoing_sum); try reflexivity;
    try apply Z.ltb_lt in Hpos; try apply Z.ltb_ge in Hpos;
    try apply Z.ltb_lt in Hneg; try apply Z.ltb_ge in Hneg; lia.
Qed.

Lemma kpi_cards_show_the_frame_witness :
  RealtimeKpi.update_kpi_values
    (Some [RealtimeDashboard.mkMovement 1 "Box Product" "Type B"
             "2024-01-01 00:00:00" "incoming" 1200 120;
           RealtimeDashboard.mkMovement 2 "Box Product" "Type B"
             "2024-01-01 00:00:02" "outgoing" 3 120]) =
  ("1,200", "3", "+1,197", "kpi-value positive", "2") /\
  RealtimeKpi.update_kpi_values (Some []) = RealtimeKpi.update_kpi_values None.
Proof.
  split; [reflexivity|].
  refine (proj2 (kpi_cards_show_the_frame
    [RealtimeDashboard.mkMovement 1 "Box Product" "Type B"
       "2024-01-01 00:00:00" "incoming" 1200 120;
     RealtimeDashboard.mkMovement 2 "Box Product" "Type B"
       "2024-01-01 00:00:02" "outgoing" 3 120] _)).
  reflexivity.
Defined.

Section ThousandsFacts.
Import RealtimeKpi Notions.

Lemma group_thousands_digits (digits : list ascii) :
  forall k, filter not_comma (group_thousands digits k) = filter not_comma digits.
Proof.
  induction digits as [|c tl IH]; intros k; [reflexivity|].
  cbn [group_thousands]. destruct (Nat.eqb k 3).
  - cbn [filter]. change (not_comma ","%char) with false. cbn iota.
    now rewrite IH.
  - cbn [filter]. now rewrite IH.
Qed.

Lemma uint_digits_no_comma (d : Decimal.uint) :
  filter not_comma (list_ascii_of_string (NilEmpty.string_of_uint d)) =
  list_ascii_of_string (NilEmpty.string_of_uint d).
Proof.
  induction d; cbn [NilEmpty.string_of_uint list_ascii_of_string filter];
    try reflexivity;
    match goal with
    | |- context [not_comma ?c] => change (not_comma c) with true
    end; cbn iota; now rewrite IHd.
Qed.

Lemma str_of_int_no_comma (n : Z) :
  filter not_comma (list_ascii_of_string (Py.str_of_int n)) =
  list_ascii_of_string (Py.str_of_int n).
Proof.
  unfold Py.str_of_int, NilZero.string_of_int.
  destruct (Z.to_int n) as [d|d]; unfold NilZero.string_of_uint.
  - destruct d; try reflexivity; apply uint_digits_no_comma.
  - cbn [list_ascii_of_string filter]. change (not_comma "-"%char) with true.
    cbn iota. f_equal.
    destruct d; try reflexivity; apply uint_digits_no_comma.
Qed.

Lemma str_of_int_sign (n : Z) :
  Py.str_of_int n =
  String.append (if n <? 0 then "-" else "") (Py.str_of_int (Z.abs n)).
Proof.
  destruct n; reflexivity.
Qed.

Lemma list_ascii_app (a b : string) :
  list_ascii_of_string (a ++ b) =
  (list_ascii_of_string a ++ list_ascii_of_string b)%list.
Proof.
  induction a as [|c a IH]; simpl; [reflexivity | now rewrite IH].
Qed.

End ThousandsFacts.

(** X21: the thousands format only adds commas: with the commas taken
    out, the text of a KPI number is the plain decimal text of the
    number, sign included. *)
Theorem format_thousands_keeps_digits :
  forall n : Z,
    string_of_list_ascii
      (filter Notions.not_comma
              (list_ascii_of_string (RealtimeKpi.format_thousands n))) =
    Py.str_of_int n.
Proof.
  intros n. unfold RealtimeKpi.format_thousands. cbv zeta.
  rewrite list_ascii_app, filter_app, list_ascii_of_string_of_list_ascii.
  rewrite filter_rev, group_thousands_digits, <- filter_rev, rev_involutive.
  rewrite str_of_int_no_comma.
  rewrite (str_of_int_sign n).
  destruct (n <? 0).
  - change (filter Notions.not_comma (list_ascii_of_string "-"))
      with ["-"%char].
    cbn [app string_of_list_ascii].
    now rewrite string_of_list_ascii_of_string.
  - change (filter Notions.not_comma (list_ascii_of_string ""))
      with (@nil ascii).
    cbn [app]. now rewrite string_of_list_ascii_of_string.
Qed.
